(** * DataCleaning: a shallow embedding of [src/data_cleaning/DataCleaning.py]

    The pipeline cleans a table of scraped apartment listings column by
    column.  Every cleaning step of the class [DataCleaning] is embedded
    below under its own name, together with the part of the Python and
    pandas run time the steps call into:

    - text is a list of Unicode code points, as a Python [str];
    - a Python [float] is a binary64 number ([spec_float] of the Standard
      Library at precision 53), with correctly rounded text conversion;
    - a call that can raise returns in [res], whose [Raise] carries the
      class of the exception, so that [try]/[except] clauses are pattern
      matches on that class;
    - a [DataFrame] is a finite map from column names to columns of equal
      length; a method of the class takes the object and returns the
      object after its assignment, or the exception it raises;
    - the dtype of a column is read off its cells (int64, float64 or
      object), as pandas infers it when a table is built; a row that
      [df.apply(f, axis=1)] hands to [f] holds the cells in the common
      dtype of the columns, so that in a table of numeric columns an
      integer reaches [f] as a float.

    Outside the model: the four diagnostic methods and [write_to_csv],
    which only print or write; the loading of the table and of the
    exchange rate; what pandas does with an empty table, with integers
    beyond 64 bits and with the dtype of a column of timestamps (the
    model keeps [None] there, where pandas shows NaT); and the limit
    of [int] on the number of digits of a text. *)

From Stdlib Require Import ZArith Ascii String Lia Floats.SpecFloat.
From stdpp Require Import base tactics option list gmap strings.

#[local] Open Scope Z_scope.

(* ================================================================= *)
(** ** Exceptions *)

Inductive exn : Set :=
  | ValueError
  | TypeError
  | ZeroDivisionError
  | OverflowError
  | KeyError
  | AttributeError.

#[global] Instance exn_eq_dec : EqDecision exn.
Proof. solve_decision. Defined.

Inductive res (A : Type) : Type :=
  | Ok (a : A)
  | Raise (e : exn).

Arguments Ok {A} a.
Arguments Raise {A} e.

#[global] Instance res_ret : MRet res := fun _ a => Ok a.
#[global] Instance res_bind : MBind res := fun _ _ f m =>
  match m with
  | Ok a => f a
  | Raise e => Raise e
  end.
#[global] Instance res_fmap : FMap res := fun _ _ f m =>
  match m with
  | Ok a => Ok (f a)
  | Raise e => Raise e
  end.

(** [mapM] of the [res] monad: the first exception, in list order, aborts
    the traversal (a column is processed top to bottom). *)
Fixpoint res_mapM {A B : Type} (f : A -> res B) (l : list A) : res (list B) :=
  match l with
  | [] => Ok []
  | a :: l' => b ← f a; bs ← res_mapM f l'; Ok (b :: bs)
  end.

(** [try: body except (e1, ..., en): handler] *)
Definition try_except {A : Type} (body : res A) (caught : list exn)
    (handler : res A) : res A :=
  match body with
  | Ok a => Ok a
  | Raise e => if bool_decide (e ∈ caught) then handler else Raise e
  end.

(** [try: body except: handler], which catches every exception. *)
Definition try_except_all {A : Type} (body handler : res A) : res A :=
  match body with
  | Ok a => Ok a
  | Raise _ => handler
  end.

Definition is_ok {A : Type} (r : res A) : bool :=
  match r with
  | Ok _ => true
  | Raise _ => false
  end.

(* ================================================================= *)
(** ** Text *)

Module Str.

(** A Python [str]: a sequence of code points. *)
Definition t : Type := list Z.

Fixpoint bytes_of_string (s : string) : list Z :=
  match s with
  | EmptyString => []
  | String a s' => Z.of_N (N_of_ascii a) :: bytes_of_string s'
  end.

(** Literals of this file are written in UTF-8; [utf8_decode] reads the
    bytes of a literal back into code points. *)
Fixpoint utf8_decode (bs : list Z) : t :=
  match bs with
  | [] => []
  | b0 :: r0 =>
    if b0 <? 128 then b0 :: utf8_decode r0
    else
      match r0 with
      | [] => []
      | b1 :: r1 =>
        if b0 <? 224 then ((b0 - 192) * 64 + (b1 - 128)) :: utf8_decode r1
        else
          match r1 with
          | [] => []
          | b2 :: r2 =>
            if b0 <? 240
            then ((b0 - 224) * 4096 + (b1 - 128) * 64 + (b2 - 128)) :: utf8_decode r2
            else
              match r2 with
              | [] => []
              | b3 :: r3 =>
                ((b0 - 240) * 262144 + (b1 - 128) * 4096
                 + (b2 - 128) * 64 + (b3 - 128)) :: utf8_decode r3
              end
          end
      end
  end.

Definition lit (s : string) : t := utf8_decode (bytes_of_string s).

Definition eqb (a b : t) : bool := bool_decide (a = b).

(** [str.isspace] for one code point: the characters that [str.strip]
    and [str.split] (without argument) treat as white space. *)
Definition is_space (c : Z) : bool :=
  ((9 <=? c) && (c <=? 13)) || ((28 <=? c) && (c <=? 32))
  || (c =? 133) || (c =? 160) || (c =? 5760)
  || ((8192 <=? c) && (c <=? 8202))
  || (c =? 8232) || (c =? 8233) || (c =? 8239) || (c =? 8287) || (c =? 12288).

Fixpoint lstrip (s : t) : t :=
  match s with
  | [] => []
  | c :: s' => if is_space c then lstrip s' else s
  end.

Definition rstrip (s : t) : t := rev (lstrip (rev s)).

(** [s.strip()] *)
Definition strip (s : t) : t := rstrip (lstrip s).

(** [s.split()] : the maximal runs of characters that are not white
    space.  [split_go] returns the run that starts at the head of the
    text (empty when the text starts with white space) and the runs
    after it. *)
Fixpoint split_go (s : t) : t * list t :=
  match s with
  | [] => ([], [])
  | c :: s' =>
    let '(w, ts) := split_go s' in
    if is_space c
    then ([], match w with [] => ts | _ :: _ => w :: ts end)
    else (c :: w, ts)
  end.

Definition split (s : t) : list t :=
  let '(w, ts) := split_go s in
  match w with [] => ts | _ :: _ => w :: ts end.

(** [s.split(sep)] for a separator of one character; the result is
    never empty. *)
Fixpoint split_on (sep : Z) (s : t) : list t :=
  match s with
  | [] => [[]]
  | c :: s' =>
    if c =? sep then [] :: split_on sep s'
    else
      match split_on sep s' with
      | w :: ts => (c :: w) :: ts
      | [] => [[c]]
      end
  end.

Fixpoint is_prefix (p s : t) : bool :=
  match p, s with
  | [], _ => true
  | _ :: _, [] => false
  | a :: p', b :: s' => (a =? b) && is_prefix p' s'
  end.

(** [needle in hay] *)
Fixpoint contains (needle hay : t) : bool :=
  is_prefix needle hay
  || match hay with
     | [] => false
     | _ :: hay' => contains needle hay'
     end.

(** [s.endswith(suffix)] *)
Definition endswith (s suffix : t) : bool := is_prefix (rev suffix) (rev s).

(** [s.replace(old, new)] where [old] is one character, which is the
    only form the pipeline uses. *)
Definition replace (old : Z) (new : t) (s : t) : t :=
  flat_map (fun c => if c =? old then new else [c]) s.

(** The slices [s[:n]], [s[:-n]] and [s[i:j]] (for [i <= j], both
    non-negative). *)
Definition slice_to (n : nat) (s : t) : t := take n s.
Definition slice_to_neg (n : nat) (s : t) : t := take (length s - n)%nat s.
Definition slice (i j : nat) (s : t) : t := take (j - i)%nat (drop i s).

End Str.

Abbreviation pystr := Str.t.
Abbreviation u := Str.lit.

(** The code point of a literal of one character. *)
Definition ch (s : string) : Z := default 0 (head (Str.lit s)).

(** The characters and the unit of area that the cleaning steps look for. *)
Definition COMMA : Z := Eval vm_compute in ch ",".
Definition DOLLAR : Z := Eval vm_compute in ch "$".
Definition SLASH : Z := Eval vm_compute in ch "/".
Definition SQUARE_METRES : pystr := Eval vm_compute in u "მ²".

(* ================================================================= *)
(** ** Numbers *)

(** Decimal digits of text that is already ASCII. *)
Module Digits.

Definition is_digit (c : Z) : bool := (48 <=? c) && (c <=? 57).

Definition value (ds : list Z) : Z :=
  fold_left (fun acc c => acc * 10 + (c - 48)) ds 0.

(** The longest prefix of digits, and the rest. *)
Fixpoint span (s : list Z) : list Z * list Z :=
  match s with
  | [] => ([], [])
  | c :: s' =>
    if is_digit c then let '(ds, r) := span s' in (c :: ds, r) else ([], s)
  end.

(** The decimal numeral of a natural number, most significant digit
    first; [fuel] bounds the number of digits. *)
Fixpoint of_pos_fuel (fuel : nat) (n : Z) (acc : list Z) : list Z :=
  match fuel with
  | O => acc
  | S fuel' =>
    let acc' := (48 + n mod 10) :: acc in
    if n <? 10 then acc' else of_pos_fuel fuel' (n / 10) acc'
  end.

Definition of_nonneg (n : Z) : list Z :=
  of_pos_fuel (S (Z.to_nat (Z.log2 n))) n [].

(** [str(n)] for a Python [int]. *)
Definition of_Z (n : Z) : list Z :=
  if n <? 0 then 45 :: of_nonneg (- n) else of_nonneg n.

(** The rule of Python numerals for underscores: one underscore may
    stand between two digits.  [strip_underscores] removes them, or
    fails where one is misplaced.  [prev] is the previous character (0 at
    the start). *)
Fixpoint strip_underscores_from (prev : Z) (s : list Z) : option (list Z) :=
  match s with
  | [] => if prev =? 95 then None else Some []
  | c :: s' =>
    if c =? 95 then
      if is_digit prev then strip_underscores_from c s' else None
    else if (prev =? 95) && negb (is_digit c) then None
    else cons c <$> strip_underscores_from c s'
  end.

Definition strip_underscores (s : list Z) : option (list Z) :=
  strip_underscores_from 0 s.

End Digits.

(** Python's [float]: IEEE 754 binary64. *)
Module Float.

Definition t : Type := spec_float.

Definition prec : Z := 53.
Definition emax : Z := 1024.

Definition nan : t := S754_nan.
Definition inf (neg : bool) : t := S754_infinity neg.

Definition eqb (x y : t) : bool :=
  match x, y with
  | S754_zero a, S754_zero b => bool_decide (a = b)
  | S754_infinity a, S754_infinity b => bool_decide (a = b)
  | S754_nan, S754_nan => true
  | S754_finite a m e, S754_finite b n f =>
    bool_decide (a = b) && (m =? n)%positive && (e =? f)
  | _, _ => false
  end.

Definition is_nan (x : t) : bool :=
  match x with S754_nan => true | _ => false end.

Definition is_finite (x : t) : bool :=
  match x with S754_zero _ | S754_finite _ _ _ => true | _ => false end.

(** [x * y] *)
Definition mul (x y : t) : t := SFmul prec emax x y.

(** The binary64 number nearest to [(-1)^neg * m * 10^e] (ties to
    even): the value of a decimal numeral.  For a negative exponent the
    quotient [m * 2^k / 10^-e] is taken with enough bits for the
    remainder to decide the rounding. *)
Definition of_decimal (neg : bool) (m e : Z) : t :=
  match m with
  | Zpos p =>
    if 0 <=? e then
      match Zpos p * 10 ^ e with
      | Zpos q => binary_round prec emax neg q 0
      | _ => S754_zero neg
      end
    else
      let d := 10 ^ (- e) in
      let k := Z.log2 d + 66 in
      let n := Zpos p * 2 ^ k in
      let q := n / d in
      let r := n mod d in
      let loc := if r =? 0 then loc_Exact else loc_Inexact (2 * r ?= d) in
      binary_round_aux prec emax neg q (- k) loc
  | _ => S754_zero neg
  end.

(** [float(n)] for a Python [int]. *)
Definition of_Z (n : Z) : t := of_decimal (n <? 0) (Z.abs n) 0.

(** The integer part of a finite number, rounded towards zero. *)
Definition trunc_finite (neg : bool) (m : positive) (e : Z) : Z :=
  let a := if 0 <=? e then Zpos m * 2 ^ e else Zpos m / 2 ^ (- e) in
  if neg then - a else a.

(** The nearest integer to a finite number, ties to the even one. *)
Definition round_finite (neg : bool) (m : positive) (e : Z) : Z :=
  let a :=
    if 0 <=? e then Zpos m * 2 ^ e
    else
      let d := 2 ^ (- e) in
      let q := Zpos m / d in
      match 2 * (Zpos m mod d) ?= d with
      | Lt => q
      | Gt => q + 1
      | Eq => if Z.even q then q else q + 1
      end in
  if neg then - a else a.

(** [int(x)]: truncation; a NaN is a [ValueError] and an infinity an
    [OverflowError]. *)
Definition to_int (x : t) : res Z :=
  match x with
  | S754_zero _ => Ok 0
  | S754_finite neg m e => Ok (trunc_finite neg m e)
  | S754_nan => Raise ValueError
  | S754_infinity _ => Raise OverflowError
  end.

(** [round(x)], with the same exceptions as [int(x)]. *)
Definition round (x : t) : res Z :=
  match x with
  | S754_zero _ => Ok 0
  | S754_finite neg m e => Ok (round_finite neg m e)
  | S754_nan => Raise ValueError
  | S754_infinity _ => Raise OverflowError
  end.

(** *** [repr] of a float

    Python prints the shortest decimal numeral that reads back as the
    same float and, among those, the one nearest to it. *)

(** Compare [m * 2^e] with [c * 10^k], for positive [m] and [c]. *)
Definition cmp_dec (m e c k : Z) : comparison :=
  (m * 2 ^ Z.max e 0 * 10 ^ Z.max (- k) 0
   ?= c * 2 ^ Z.max (- e) 0 * 10 ^ Z.max k 0).

(** [floor (m * 2^e / 10^k)] *)
Definition floor_dec (m e k : Z) : Z :=
  (m * 2 ^ Z.max e 0 * 10 ^ Z.max (- k) 0)
  / (2 ^ Z.max (- e) 0 * 10 ^ Z.max k 0).

(** The decimal exponent [p] with [10^p <= m * 2^e < 10^(p+1)], found
    upwards from an estimate that is too low by at most three. *)
Fixpoint exp10_from (fuel : nat) (m e p : Z) : Z :=
  match fuel with
  | O => p
  | S fuel' =>
    match cmp_dec m e 1 (p + 1) with
    | Lt => p
    | _ => exp10_from fuel' m e (p + 1)
    end
  end.

Definition exp10 (m e : Z) : Z :=
  exp10_from 6 m e ((Z.log2 m + e) * 30103 / 100000 - 2).

Fixpoint drop_zeros (fuel : nat) (c k : Z) : Z * Z :=
  match fuel with
  | O => (c, k)
  | S fuel' =>
    if (c mod 10 =? 0) && (0 <? c) then drop_zeros fuel' (c / 10) (k + 1)
    else (c, k)
  end.

(** The numeral with [n] digits, then [n + 1], ...: the first that reads
    back as [m * 2^e]. *)
Fixpoint shortest_from (fuel : nat) (m : positive) (e p n : Z) : Z * Z :=
  let k := p - (n - 1) in
  let lo := floor_dec (Zpos m) e k in
  match fuel with
  | O => (lo, k)
  | S fuel' =>
    let x := S754_finite false m e in
    let ok_lo := (0 <? lo) && eqb (of_decimal false lo k) x in
    let ok_hi := eqb (of_decimal false (lo + 1) k) x in
    if ok_lo && ok_hi then
      match cmp_dec (2 * Zpos m) e (2 * lo + 1) k with
      | Gt => (lo + 1, k)
      | Lt => (lo, k)
      | Eq => if Z.even lo then (lo, k) else (lo + 1, k)
      end
    else if ok_lo then (lo, k)
    else if ok_hi then (lo + 1, k)
    else shortest_from fuel' m e p (n + 1)
  end.

Definition shortest (m : positive) (e : Z) : Z * Z :=
  let '(c, k) := shortest_from 17 m e (exp10 (Zpos m) e) 1 in
  drop_zeros 20 c k.

Definition zeros (n : Z) : list Z := replicate (Z.to_nat n) 48.

(** Two digits at least, as in [1e-05]. *)
Definition exponent_text (x : Z) : list Z :=
  let ds := Digits.of_nonneg (Z.abs x) in
  (if x <? 0 then 45 else 43)
  :: (if Z.abs x <? 10 then 48 :: ds else ds).

Definition repr_finite (m : positive) (e : Z) : list Z :=
  let '(c, k) := shortest m e in
  let ds := Digits.of_nonneg c in
  let n := Z.of_nat (length ds) in
  let decpt := k + n in
  if (decpt <=? -4) || (16 <? decpt) then
    match ds with
    | [] => []
    | d :: rest =>
      (d :: match rest with [] => [] | _ :: _ => 46 :: rest end)
      ++ 101 :: exponent_text (decpt - 1)
    end
  else if decpt <=? 0 then [48; 46] ++ zeros (- decpt) ++ ds
  else if n <=? decpt then ds ++ zeros (decpt - n) ++ [46; 48]
  else take (Z.to_nat decpt) ds ++ 46 :: drop (Z.to_nat decpt) ds.

Definition with_sign (neg : bool) (s : list Z) : list Z :=
  if neg then 45 :: s else s.

(** [repr(x)], which is also [str(x)]. *)
Definition repr (x : t) : list Z :=
  match x with
  | S754_nan => u "nan"
  | S754_infinity neg => with_sign neg (u "inf")
  | S754_zero neg => with_sign neg (u "0.0")
  | S754_finite neg m e => with_sign neg (repr_finite m e)
  end.

End Float.

(* ================================================================= *)
(** ** What the pipeline takes from its libraries as tables

    Two tables of the Unicode character database and the numeral reader
    of pandas are not part of the repository.  They are taken as an
    interface; [Reference.library] further down is an instance of it that
    the examples compute with. *)

Definition ascii_lower (c : Z) : Z :=
  if (65 <=? c) && (c <=? 90) then c + 32 else c.

Definition is_ascii (c : Z) : Prop := 0 <= c < 128.

Inductive number : Type :=
  | NInt (n : Z)
  | NFloat (x : Float.t).

Class Library : Type := {
  (** [str.lower]: the lower-case mapping of the character database. *)
  str_lower : pystr -> pystr;
  (** On ASCII text it maps [A]..[Z] to [a]..[z] and nothing else. *)
  str_lower_ascii :
    forall s : pystr, Forall is_ascii s -> str_lower s = map ascii_lower s;
  (** [Py_UNICODE_TODECIMAL]: the value of a decimal digit outside ASCII
      (for example of an Arabic-Indic digit), which [int] and [float]
      read as the ASCII digit of the same value. *)
  unicode_decimal : Z -> option Z;
  (** The numeral reader behind [pd.to_numeric] on one text: the number
      it reads, or nothing when the text is no numeral (which
      [errors='coerce'] turns into NaN). *)
  to_numeric_text : pystr -> option number;
  (** No numeral ends in the unit of area, [მ²]. *)
  to_numeric_text_unit :
    forall s : pystr, Str.endswith s SQUARE_METRES = true -> to_numeric_text s = None;
}.

(** ** Reading numerals: [float(s)] and [int(s)] *)
Module Parse.

(** White space of the ASCII range as the numeral readers skip it. *)
Definition is_ascii_space (c : Z) : bool :=
  (c =? 32) || ((9 <=? c) && (c <=? 13)).

Fixpoint lskip (s : list Z) : list Z :=
  match s with
  | [] => []
  | c :: s' => if is_ascii_space c then lskip s' else s
  end.

Definition trim (s : list Z) : list Z := rev (lskip (rev (lskip s))).

(** Both readers first bring the text to ASCII: white space outside
    ASCII becomes a blank, a decimal digit its ASCII digit, and any
    other character a question mark, which no numeral contains. *)
Definition to_ascii `{Library} (s : pystr) : list Z :=
  map (fun c =>
         if c <? 128 then c
         else if Str.is_space c then 32
         else match unicode_decimal c with
              | Some d => 48 + d
              | None => 63
              end) s.

(** An optional sign. *)
Definition sign (s : list Z) : bool * list Z :=
  match s with
  | 45 :: r => (true, r)
  | 43 :: r => (false, r)
  | _ => (false, s)
  end.

(** The exponent part of a decimal numeral: nothing, or [e], an
    optional sign and digits up to the end of the text. *)
Definition exponent (s : list Z) : option Z :=
  match s with
  | [] => Some 0
  | c :: r =>
    if (c =? 101) || (c =? 69) then
      let '(neg, r') := sign r in
      let '(ds, rest) := Digits.span r' in
      match ds, rest with
      | _ :: _, [] => Some (if neg then - Digits.value ds else Digits.value ds)
      | _, _ => None
      end
    else None
  end.

(** A decimal numeral: digits, an optional point and more digits, with
    one digit at least, and an optional exponent. *)
Definition decimal (neg : bool) (s : list Z) : option Float.t :=
  let '(ip, r1) := Digits.span s in
  let '(fp, r2) :=
    match r1 with
    | 46 :: r => Digits.span r
    | _ => ([], r1)
    end in
  match ip ++ fp with
  | [] => None
  | _ :: _ =>
    e ← exponent r2;
    Some (Float.of_decimal neg (Digits.value (ip ++ fp)) (e - Z.of_nat (length fp)))
  end.

(** A numeral behind its sign: an infinity, a NaN, or a decimal numeral. *)
Definition float_unsigned (neg : bool) (r : list Z) : option Float.t :=
  let w := map ascii_lower r in
  if Str.eqb w (u "inf") || Str.eqb w (u "infinity") then Some (Float.inf neg)
  else if Str.eqb w (u "nan") then Some Float.nan
  else decimal neg r.

Definition float_ascii (s : list Z) : option Float.t :=
  let '(neg, r) := sign s in float_unsigned neg r.

(** [float(s)] for a [str]; text that is no numeral is a [ValueError]. *)
Definition float_of_str `{Library} (s : pystr) : res Float.t :=
  match Digits.strip_underscores (trim (to_ascii s)) ≫= float_ascii with
  | Some x => Ok x
  | None => Raise ValueError
  end.

Definition int_ascii (s : list Z) : option Z :=
  let '(neg, r) := sign s in
  ds ← Digits.strip_underscores r;
  match ds with
  | [] => None
  | _ :: _ =>
    if forallb Digits.is_digit ds
    then Some (if neg then - Digits.value ds else Digits.value ds)
    else None
  end.

(** [int(s)] for a [str], in base ten. *)
Definition int_of_str `{Library} (s : pystr) : res Z :=
  match int_ascii (trim (to_ascii s)) with
  | Some n => Ok n
  | None => Raise ValueError
  end.

End Parse.

(* ================================================================= *)
(** ** Values of a table cell *)

(** [datetime.datetime], without the fields the pipeline leaves at zero. *)
Record datetime : Type := Datetime {
  dt_year : Z;
  dt_month : Z;
  dt_day : Z;
  dt_hour : Z;
  dt_minute : Z;
}.

Inductive value : Type :=
  | VNone                        (* [None] *)
  | VStr (s : pystr)             (* a [str] *)
  | VInt (n : Z)                 (* an [int] *)
  | VFloat (x : Float.t)         (* a [float]; NaN is pandas' missing number *)
  | VDate (d : datetime).        (* a [datetime] *)

#[global] Instance spec_float_eq_dec : EqDecision spec_float.
Proof. solve_decision. Defined.
#[global] Instance datetime_eq_dec : EqDecision datetime.
Proof. solve_decision. Defined.
#[global] Instance value_eq_dec : EqDecision value.
Proof. solve_decision. Defined.
(** The missing number. *)
Definition NaN : value := VFloat Float.nan.

Definition value_of_number (n : number) : value :=
  match n with
  | NInt k => VInt k
  | NFloat x => VFloat x
  end.

Module Py.

(** [isinstance(v, str)] *)
Definition is_str (v : value) : bool :=
  match v with VStr _ => true | _ => false end.

Definition is_leap (y : Z) : bool :=
  (y mod 4 =? 0) && (negb (y mod 100 =? 0) || (y mod 400 =? 0)).

Definition days_in_month (y m : Z) : Z :=
  if m =? 2 then (if is_leap y then 29 else 28)
  else if (m =? 4) || (m =? 6) || (m =? 9) || (m =? 11) then 30
  else 31.

Definition fits_c_int (n : Z) : bool := (- 2 ^ 31 <=? n) && (n <? 2 ^ 31).

Definition datetime_in_range (y m d h mi : Z) : bool :=
  (1 <=? y) && (y <=? 9999)
  && (1 <=? m) && (m <=? 12)
  && (1 <=? d) && (d <=? days_in_month y m)
  && (0 <=? h) && (h <=? 23)
  && (0 <=? mi) && (mi <=? 59).

(** [datetime(year=y, month=m, day=d, hour=h, minute=mi)]: a field out
    of its range is a [ValueError] (and an [OverflowError] when it does
    not even fit a C [int]). *)
Definition datetime_new (y m d h mi : Z) : res datetime :=
  if negb (forallb fits_c_int [y; m; d; h; mi]) then Raise OverflowError
  else if datetime_in_range y m d h mi then Ok (Datetime y m d h mi)
  else Raise ValueError.

(** Digits of [n], padded with zeros on the left to [width]. *)
Definition zero_pad (width : nat) (n : Z) : pystr :=
  let ds := Digits.of_nonneg n in
  replicate (width - length ds) 48 ++ ds.

(** [str(d)]: [YYYY-MM-DD HH:MM:SS]. *)
Definition str_of_datetime (d : datetime) : pystr :=
  zero_pad 4 (dt_year d) ++ [45] ++ zero_pad 2 (dt_month d) ++ [45]
  ++ zero_pad 2 (dt_day d) ++ [32] ++ zero_pad 2 (dt_hour d) ++ [58]
  ++ zero_pad 2 (dt_minute d) ++ u ":00".

(** [str(v)] *)
Definition str (v : value) : pystr :=
  match v with
  | VNone => u "None"
  | VStr s => s
  | VInt n => Digits.of_Z n
  | VFloat x => Float.repr x
  | VDate d => str_of_datetime d
  end.

(** [int(v)] *)
Definition int `{Library} (v : value) : res Z :=
  match v with
  | VInt n => Ok n
  | VFloat x => Float.to_int x
  | VStr s => Parse.int_of_str s
  | VNone | VDate _ => Raise TypeError
  end.

(** [a // b] on integers; [Z.div] rounds towards minus infinity, as
    Python does. *)
Definition floordiv (a b : Z) : res Z :=
  if b =? 0 then Raise ZeroDivisionError else Ok (a / b).

End Py.

(* ================================================================= *)
(** ** The part of pandas the pipeline uses *)

Module Pd.

Abbreviation Series := (list value).

(** A table: [nrows] rows and named columns, each of [nrows] cells. *)
Record DataFrame : Type := {
  nrows : nat;
  columns : gmap string Series;
}.

Definition well_formed (df : DataFrame) : Prop :=
  forall c col, columns df !! c = Some col -> length col = nrows df.

(** [pd.isna(v)] *)
Definition isna (v : value) : bool :=
  match v with
  | VNone => true
  | VFloat x => Float.is_nan x
  | _ => false
  end.

(** [df[c]] *)
Definition getitem (df : DataFrame) (c : string) : res Series :=
  match columns df !! c with
  | Some col => Ok col
  | None => Raise KeyError
  end.

(** [df[c] = col] *)
Definition setitem (df : DataFrame) (c : string) (col : Series) : DataFrame :=
  {| nrows := nrows df; columns := <[c := col]> (columns df) |}.

(** *** The dtype of a column of results

    A column built from Python objects is stored as float64 when its
    cells are numbers and missing values, one number at least, and not
    integers only: [None] becomes NaN and an integer the float of the
    same value.  Any other column keeps its objects.  (So does one with
    an integer beyond 64 bits.) *)
Definition is_number (v : value) : bool :=
  match v with VInt _ | VFloat _ => true | _ => false end.

Definition is_int64 (v : value) : bool :=
  match v with
  | VInt n => (- 2 ^ 63 <=? n) && (n <? 2 ^ 63)
  | _ => false
  end.

Definition fits_float64 (v : value) : bool :=
  match v with
  | VNone | VFloat _ => true
  | VInt _ => is_int64 v
  | _ => false
  end.

Definition to_float64 (v : value) : value :=
  match v with
  | VNone => NaN
  | VInt n => VFloat (Float.of_Z n)
  | _ => v
  end.

Definition infer_dtype (col : Series) : Series :=
  if forallb fits_float64 col && existsb is_number col
     && negb (forallb is_int64 col)
  then to_float64 <$> col
  else col.

(** [col.apply(f)] *)
Definition apply (f : value -> res value) (col : Series) : res Series :=
  infer_dtype <$> res_mapM f col.

(** *** The rows of a table

    [df.apply(f, axis=1)] takes the rows from [df.values], one array for
    the whole table.  Its dtype is the common dtype of the columns: when
    every column is int64 or float64, and not all of them int64, the
    array is float64 and an integer reaches [f] as the float nearest to
    it; with a column of objects (text, [None], timestamps) the array
    holds the cells as they are stored.  The dtype of a column is read
    off its cells, as pandas infers it when the table is built. *)
Definition is_float64 (v : value) : bool :=
  match v with VFloat _ => true | _ => false end.

Definition numeric_dtype (col : Series) : bool :=
  forallb is_int64 col || forallb is_float64 col.

Definition values_float64 (df : DataFrame) : bool :=
  let cols := (map_to_list (columns df)).*2 in
  forallb numeric_dtype cols && negb (forallb (forallb is_int64) cols).

(** A stored cell as it stands in [df.values]. *)
Definition cell (df : DataFrame) (v : value) : value :=
  if values_float64 df then to_float64 v else v.

(** Row [i] of a table, as [df.apply(f, axis=1)] hands it to [f]. *)
Abbreviation Row := (gmap string value).

Definition row (df : DataFrame) (i : nat) : Row :=
  omap (fun col : Series => cell df <$> col !! i) (columns df).

Definition rows (df : DataFrame) : list Row :=
  row df <$> seq 0 (nrows df).

(** [r[c]] *)
Definition row_get (r : Row) (c : string) : res value :=
  match r !! c with
  | Some v => Ok v
  | None => Raise KeyError
  end.

(** [df.apply(f, axis=1)] *)
Definition apply_rows (f : Row -> res value) (df : DataFrame) : res Series :=
  infer_dtype <$> res_mapM f (rows df).

(** [pd.to_numeric(col, errors='coerce')]: a number stays, a numeral is
    read, everything else becomes NaN. *)
Definition to_numeric_value `{Library} (v : value) : value :=
  match v with
  | VInt _ | VFloat _ => v
  | VStr s =>
    match to_numeric_text s with
    | Some n => value_of_number n
    | None => NaN
    end
  | VNone | VDate _ => NaN
  end.

Definition to_numeric `{Library} (col : Series) : Series :=
  infer_dtype (to_numeric_value <$> col).

(** [col.fillna(x)] *)
Definition fillna (x : value) (col : Series) : Series :=
  (fun v => if isna v then x else v) <$> col.

(** [col.astype(str)] *)
Definition astype_str (col : Series) : Series :=
  (fun v => VStr (Py.str v)) <$> col.

(** [df.shape]: the number of rows and the number of columns. *)
Definition shape (df : DataFrame) : nat * nat :=
  (nrows df, size (columns df)).

(** [df.isnull().sum()]: for every column, the number of its cells that
    are missing. *)
Definition null_count (col : Series) : nat :=
  length (filter (fun v => isna v = true) col).

Definition isnull_sum (df : DataFrame) : gmap string nat :=
  null_count <$> columns df.

End Pd.

(* ================================================================= *)
(** ** The class [DataCleaning] *)

Module DataCleaning.
Section Methods.

Context `{Library}.

(** The object: the table being cleaned and the exchange rate, both
    set by [__init__].  A method that assigns to [self.apartments_df]
    returns the object after the assignment; one that raises leaves
    the object as it was. *)
Record t : Type := {
  apartments_df : Pd.DataFrame;
  currency_rate : Float.t;
}.

Definition with_df (self : t) (df : Pd.DataFrame) : t :=
  {| apartments_df := df; currency_rate := currency_rate self |}.

(** *** [__clean_area_m2] *)

(** [lambda x: x[:-2] if isinstance(x, str) and x.endswith('მ²') else x] *)
Definition strip_unit (x : value) : value :=
  match x with
  | VStr s => if Str.endswith s SQUARE_METRES then VStr (Str.slice_to_neg 2 s) else x
  | _ => x
  end.

Definition __clean_area_m2 (self : t) : res t :=
  col ← Pd.getitem (apartments_df self) "area_m2";
  col ← Pd.apply (fun x => Ok (strip_unit x)) col;
  let df := Pd.setitem (apartments_df self) "area_m2" col in
  col ← Pd.getitem df "area_m2";
  Ok (with_df self (Pd.setitem df "area_m2" (Pd.to_numeric col))).

(** *** [__clean_and_transform_price] *)

Definition normalize_price (price : value) : pystr :=
  str_lower (Str.strip (Str.replace COMMA [] (Py.str price))).

Definition parse_price (rate : Float.t) (price : value) : res value :=
  let price_str := normalize_price price in
  try_except
    (if Str.contains [DOLLAR] price_str then
       x ← Parse.float_of_str (Str.strip (Str.replace DOLLAR [] price_str));
       Ok (VFloat x)
     else
       x ← Parse.float_of_str price_str;
       n ← Float.round (Float.mul x rate);
       Ok (VInt n))
    [ValueError]
    (Ok VNone).

Definition __clean_and_transform_price (self : t) : res t :=
  col ← Pd.getitem (apartments_df self) "price";
  col ← Pd.apply (parse_price (currency_rate self)) col;
  Ok (with_df self (Pd.setitem (apartments_df self) "price" col)).

(** *** [__clean_price_per_sqm] *)

Definition clean_row (rate : Float.t) (row : Pd.Row) : res value :=
  pps ← Pd.row_get row "price_per_sqm";
  if Pd.isna pps then
    try_except
      (p ← Pd.row_get row "price";
       a ← Py.int p;
       ar ← Pd.row_get row "area_m2";
       b ← Py.int ar;
       q ← Py.floordiv a b;
       Ok (VInt q))
      [TypeError; ZeroDivisionError]
      (Ok VNone)
  else
    let value := Str.strip (Py.str pps) in
    let value :=
      if Str.contains [SLASH] value
      then Str.strip (default [] (head (Str.split_on SLASH value)))
      else value in
    if Str.contains [DOLLAR] value then
      let value :=
        Str.strip (Str.replace COMMA [] (Str.replace DOLLAR [] value)) in
      x ← Parse.float_of_str value;
      Ok (VFloat x)
    else
      let value := Str.strip (Str.replace COMMA [] value) in
      x ← Parse.float_of_str value;
      n ← Float.round (Float.mul x rate);
      Ok (VInt n).

Definition __clean_price_per_sqm (self : t) : res t :=
  col ← Pd.apply_rows (clean_row (currency_rate self)) (apartments_df self);
  Ok (with_df self (Pd.setitem (apartments_df self) "price_per_sqm" col)).

(** *** [__fill_district_name_nulls] *)

Definition NOT_PROVIDED : pystr := Eval vm_compute in u "არ არის მოწოდებული".

Definition __fill_district_name_nulls (self : t) : res t :=
  col ← Pd.getitem (apartments_df self) "district_name";
  Ok (with_df self
        (Pd.setitem (apartments_df self) "district_name"
           (Pd.fillna (VStr NOT_PROVIDED) col))).

(** *** [__transform_upload_date] *)

(** Georgian abbreviated month names to numbers. *)
Definition geo_month_names : list (pystr * Z) :=
  Eval vm_compute in
    [ (u "იან", 1); (u "თებ", 2); (u "მარ", 3); (u "აპრ", 4);
      (u "მაი", 5); (u "ივნ", 6); (u "ივლ", 7); (u "აგვ", 8);
      (u "სექ", 9); (u "ოქტ", 10); (u "ნოე", 11); (u "დეკ", 12) ].

Definition geo_months : gmap pystr Z := list_to_map geo_month_names.

(** [now_year] is [datetime.now().year].  The test [if not month] is
    [month =? 0]: a month of the table is never zero, so it only lets
    the unknown abbreviations go. *)
Definition parse_date (now_year : Z) (upload_str : value) : res value :=
  try_except_all
    (match upload_str with
     | VStr s =>
       match Str.split s with
       | [day; geo_month_abbr; time_str] =>
         match geo_months !! Str.slice_to 3 geo_month_abbr with
         | None => Ok VNone
         | Some month =>
           if month =? 0 then Ok VNone
           else
             d ← Parse.int_of_str day;
             h ← Parse.int_of_str (Str.slice_to 2 time_str);
             mi ← Parse.int_of_str (Str.slice 3 5 time_str);
             dt ← Py.datetime_new now_year month d h mi;
             Ok (VDate dt)
         end
       | _ => Ok VNone
       end
     | _ => Raise AttributeError
     end)
    (Ok VNone).

Definition __transform_upload_date (now_year : Z) (self : t) : res t :=
  let df := apartments_df self in
  col ← Pd.getitem df "upload_date";
  let df := Pd.setitem df "upload_date" (Pd.astype_str col) in
  col ← Pd.getitem df "upload_date";
  col ← Pd.apply (parse_date now_year) col;
  Ok (with_df self (Pd.setitem df "upload_date" col)).

(** *** [__new_transaction_type_col] *)

Definition FOR_SALE : pystr := Eval vm_compute in u "იყიდება".
Definition PLEDGE : pystr := Eval vm_compute in u "გირავდება".
Definition DAILY_RENT : pystr := Eval vm_compute in u "ქირავდება დღიურად".
Definition RENT : pystr := Eval vm_compute in u "ქირავდება".
Definition MONTHLY_RENT : pystr := Eval vm_compute in u "ქირავდება თვიურად".

Definition extract_transaction_type (desc : value) : value :=
  match desc with
  | VStr desc =>
    let desc := Str.strip desc in
    if Str.contains FOR_SALE desc then VStr FOR_SALE
    else if Str.contains PLEDGE desc then VStr PLEDGE
    else if Str.contains DAILY_RENT desc then VStr DAILY_RENT
    else if Str.contains RENT desc then VStr MONTHLY_RENT
    else VNone
  | _ => VNone
  end.

Definition __new_transaction_type_col (self : t) : res t :=
  col ← Pd.getitem (apartments_df self) "description";
  col ← Pd.apply (fun d => Ok (extract_transaction_type d)) col;
  Ok (with_df self (Pd.setitem (apartments_df self) "transaction_type" col)).

(** *** [main]

    The four diagnostic methods only print, and are left out. *)
Definition main (now_year : Z) (self : t) : res t :=
  self ← __clean_and_transform_price self;
  self ← __clean_area_m2 self;
  self ← __clean_price_per_sqm self;
  self ← __transform_upload_date now_year self;
  self ← __new_transaction_type_col self;
  __fill_district_name_nulls self.

(** *** [__get_shape] and [__get_null_columns]

    Two of the diagnostic methods, as what they print: the shape of the
    table, and the number of missing cells of every column.  They read
    the table and assign nothing. *)
Definition __get_shape (self : t) : nat * nat :=
  Pd.shape (apartments_df self).

Definition __get_null_columns (self : t) : gmap string nat :=
  Pd.isnull_sum (apartments_df self).

End Methods.
End DataCleaning.

(* ================================================================= *)
(** ** A reference instance of the library tables

    Exact on ASCII and on scripts without case, such as the Georgian
    Mkhedruli letters of the data set; it knows the digits of four
    scripts.  The examples of this file compute with it. *)

Module Reference.

Definition lower (s : pystr) : pystr := map ascii_lower s.

Lemma lower_ascii (s : pystr) : Forall is_ascii s -> lower s = map ascii_lower s.
Proof. reflexivity. Qed.

(** ASCII digits apart: Arabic-Indic, Extended Arabic-Indic, Devanagari
    and full-width digits. *)
Definition decimal (c : Z) : option Z :=
  if (1632 <=? c) && (c <=? 1641) then Some (c - 1632)
  else if (1776 <=? c) && (c <=? 1785) then Some (c - 1776)
  else if (2406 <=? c) && (c <=? 2415) then Some (c - 2406)
  else if (65296 <=? c) && (c <=? 65305) then Some (c - 65296)
  else None.

(** Numerals in ASCII: an integer when the text is a sign and digits,
    otherwise a decimal numeral as [float] reads it. *)
Definition numeric_text (s : pystr) : option number :=
  if forallb (fun c => c <? 128) s then
    let a := Parse.trim s in
    let '(neg, ds) := Parse.sign a in
    match ds with
    | _ :: _ =>
      if forallb Digits.is_digit ds
      then Some (NInt (if neg then - Digits.value ds else Digits.value ds))
      else NFloat <$> Parse.float_ascii a
    | [] => None
    end
  else None.

Lemma numeric_text_unit (s : pystr) :
  Str.endswith s SQUARE_METRES = true -> numeric_text s = None.
Proof.
  unfold Str.endswith, numeric_text. intros E.
  replace (forallb (fun c => c <? 128) s) with false; [reflexivity|].
  rewrite <- (rev_involutive s).
  destruct (rev s) as [|c r]; [discriminate|].
  change (rev SQUARE_METRES) with [178; 4315] in E. cbn [Str.is_prefix] in E.
  destruct (Z.eqb_spec 178 c) as [<-|]; [|discriminate].
  cbn [rev]. rewrite forallb_app. cbn. now destruct (forallb _ (rev r)).
Qed.

Definition library : Library := {|
  str_lower := lower;
  str_lower_ascii := lower_ascii;
  unicode_decimal := decimal;
  to_numeric_text := numeric_text;
  to_numeric_text_unit := numeric_text_unit;
|}.

End Reference.

(* ================================================================= *)
(** * The vocabulary of the properties *)

(** The float literal [m * 10^e], as Python reads it. *)
Definition flt (m e : Z) : Float.t := Float.of_decimal false m e.

(** Texts that the properties below are stated on. *)
Definition NEGOTIABLE : pystr := Eval vm_compute in u "negotiable".
Definition INF_TEXT : pystr := Eval vm_compute in u "inf".
Definition MARCH_15 : pystr := Eval vm_compute in u "15 მარ 14:30".
Definition MARCH_15_NO_TIME : pystr := Eval vm_compute in u "15 მარ".
Definition MARCH_15_X : pystr := Eval vm_compute in u "15 მარ 14x30".
Definition MARCH_15_99 : pystr := Eval vm_compute in u "15 მარ 99x99".
Definition MARCH_15_25_61 : pystr := Eval vm_compute in u "15 მარ 25:61".
Definition MARCH_32 : pystr := Eval vm_compute in u "32 მარ 14:30".
Definition DAY_15 : pystr := Eval vm_compute in u "15".
Definition DAY_32 : pystr := Eval vm_compute in u "32".
Definition MAR : pystr := Eval vm_compute in u "მარ".
Definition TIME_14_30 : pystr := Eval vm_compute in u "14:30".
Definition VAKE : pystr := Eval vm_compute in u "ვაკე".
Definition SABURTALO : pystr := Eval vm_compute in u "საბურთალო".
Definition PRICE_1500 : pystr := Eval vm_compute in u "1,500 $".
Definition RATE_1130 : pystr := Eval vm_compute in u "1,130 $".
Definition PER_SQM : pystr := Eval vm_compute in u " მ²".
Definition MARCH_15_LONG : pystr := Eval vm_compute in u "15 მარტი 14:30:45".
Definition MARCH_LONG : pystr := Eval vm_compute in u "მარტი".
Definition TIME_14_30_45 : pystr := Eval vm_compute in u "14:30:45".

(** A row with the three columns that [clean_row] reads. *)
Definition listing_row (price area_m2 price_per_sqm : value) : Pd.Row :=
  list_to_map
    [ ("price", price); ("area_m2", area_m2);
      ("price_per_sqm", price_per_sqm) ]%string.

Section Vocabulary.

Context `{Library}.

Import DataCleaning.

Definition markers : list pystr := [FOR_SALE; PLEDGE; DAILY_RENT; RENT].

Definition is_float (v : value) : bool :=
  match v with VFloat _ => true | _ => false end.

Definition is_int (v : value) : bool :=
  match v with VInt _ => true | _ => false end.

(** The characters of the text of an integer. *)
Definition int_chars : list Z := [45; 48; 49; 50; 51; 52; 53; 54; 55; 56; 57].

(** A text made of these characters only. *)
Definition plain (s : pystr) : Prop := Forall (fun c => c ∈ int_chars) s.

(** What [__clean_area_m2] computes for one cell, before the column is
    given its dtype. *)
Definition area_value (x : value) : value := Pd.to_numeric_value (strip_unit x).

(** The object after a method has run: a method that raises has not
    assigned to [self.apartments_df]. *)
Definition after (r : res DataCleaning.t) (self : DataCleaning.t) : DataCleaning.t :=
  match r with
  | Ok self' => self'
  | Raise _ => self
  end.

(** The cleaning steps in the order of [main], each with the column it
    assigns. *)
Definition steps (now_year : Z) : list ((DataCleaning.t -> res DataCleaning.t) * string) :=
  [ (__clean_and_transform_price, "price");
    (__clean_area_m2, "area_m2");
    (__clean_price_per_sqm, "price_per_sqm");
    (__transform_upload_date now_year, "upload_date");
    (__new_transaction_type_col, "transaction_type");
    (__fill_district_name_nulls, "district_name") ]%string.

(** What a step that assigns column [c] may do to a table: the number of
    rows stays, every other column stays cell for cell, no column is
    dropped, none but [c] is added, and the columns keep the length of
    the table. *)
Definition assigns_only (c : string) (df df' : Pd.DataFrame) : Prop :=
  Pd.nrows df' = Pd.nrows df
  /\ (forall c' : string, c' <> c -> Pd.columns df' !! c' = Pd.columns df !! c')
  /\ dom (Pd.columns df) ⊆ dom (Pd.columns df')
  /\ dom (Pd.columns df') ⊆ dom (Pd.columns df) ∪ {[c]}
  /\ (Pd.well_formed df -> Pd.well_formed df').

(** The branch of [clean_row] for a price per square metre that is
    present, from the text on. *)
Definition clean_present (rate : Float.t) (text : pystr) : res value :=
  if Str.contains [DOLLAR] text then
    x ← Parse.float_of_str
          (Str.strip (Str.replace COMMA [] (Str.replace DOLLAR [] text)));
    Ok (VFloat x)
  else
    x ← Parse.float_of_str (Str.strip (Str.replace COMMA [] text));
    n ← Float.round (Float.mul x rate);
    Ok (VInt n).


(** A cell of the date column: missing, or a timestamp of the year
    [now_year] with its fields in range. *)
Definition date_of_year (now_year : Z) (v : value) : Prop :=
  v = VNone
  \/ exists m d h mi : Z,
       v = VDate (Datetime now_year m d h mi)
       /\ Py.datetime_in_range now_year m d h mi = true.


(** Every cell of column [c] satisfies [P]. *)
Definition column_all (df : Pd.DataFrame) (c : string) (P : value -> Prop) : Prop :=
  exists col : Pd.Series, Pd.columns df !! c = Some col /\ Forall P col.

End Vocabulary.

(** Tables for the examples, at the rate 0.37. *)
Module Tables.

Import DataCleaning.

Definition rate : Float.t := flt 37 (-2).

Definition table (n : nat) (cols : list (string * Pd.Series)) : DataCleaning.t :=
  {| apartments_df := {| Pd.nrows := n; Pd.columns := list_to_map cols |};
     currency_rate := rate |}.

(** The column [c] after the method [m] has run on [self]. *)
Definition column_after (m : DataCleaning.t -> res DataCleaning.t)
    (self : DataCleaning.t) (c : string) : res Pd.Series :=
  self' ← m self; Pd.getitem (apartments_df self') c.

(** Three listings: one well formed, one with a negotiable price and one
    without a district; only the last gives its price per square metre. *)
Definition listings : DataCleaning.t :=
  table 3
    [ ("area_m2", [VStr (u "50მ²"); VStr (u "80მ²"); VStr (u "65.5მ²")]);
      ("price", [VStr (u "100,000 $"); VStr (u "negotiable"); VStr (u "200,000")]);
      ("price_per_sqm", [NaN; NaN; VStr (u "1,130 $ / მ²")]);
      ("upload_date",
       [VStr (u "15 მარ 14:30"); VStr (u "1 იან 09:05"); VStr (u "28 თებ 23:59")]);
      ("description",
       [VStr (u "იყიდება ბინა ვაკეში"); VStr (u "ბინა ქირავდება დღიურად");
        VStr (u "ქირავდება ოთახი")]);
      ("district_name", [VStr VAKE; VStr SABURTALO; NaN]) ]%string.

(** The same listings with the negotiable price replaced by a number. *)
Definition priced_listings : DataCleaning.t :=
  table 3
    [ ("area_m2", [VStr (u "50მ²"); VStr (u "80მ²"); VStr (u "65.5მ²")]);
      ("price", [VStr (u "100,000 $"); VStr (u "150000"); VStr (u "200,000")]);
      ("price_per_sqm", [NaN; NaN; VStr (u "1,130 $ / მ²")]);
      ("upload_date",
       [VStr (u "15 მარ 14:30"); VStr (u "1 იან 09:05"); VStr (u "28 თებ 23:59")]);
      ("description",
       [VStr (u "იყიდება ბინა ვაკეში"); VStr (u "ბინა ქირავდება დღიურად");
        VStr (u "ქირავდება ოთახი")]);
      ("district_name", [VStr VAKE; VStr SABURTALO; NaN]) ]%string.

(** ... and with an area that is no numeral, and with a price per square
    metre that is no numeral. *)
Definition listings_unknown_area : DataCleaning.t :=
  table 2
    [ ("area_m2", [VStr (u "50მ²"); VStr (u "unknown")]);
      ("price", [VStr (u "100,000 $"); VStr (u "150000")]);
      ("price_per_sqm", [NaN; NaN]);
      ("upload_date", [VStr (u "15 მარ 14:30"); VStr (u "1 იან 09:05")]);
      ("description", [VStr (u "იყიდება ბინა"); VStr (u "ქირავდება ოთახი")]);
      ("district_name", [VStr VAKE; VStr SABURTALO]) ]%string.

Definition listings_negotiable_rate : DataCleaning.t :=
  table 2
    [ ("area_m2", [VStr (u "50მ²"); VStr (u "80მ²")]);
      ("price", [VStr (u "100,000 $"); VStr (u "150000")]);
      ("price_per_sqm", [VStr (u "2,000 $"); VStr (u "negotiable")]);
      ("upload_date", [VStr (u "15 მარ 14:30"); VStr (u "1 იან 09:05")]);
      ("description", [VStr (u "იყიდება ბინა"); VStr (u "ქირავდება ოთახი")]);
      ("district_name", [VStr VAKE; VStr SABURTALO]) ]%string.

(** A table that has been cleaned: all three columns are numbers. *)
Definition cleaned : DataCleaning.t :=
  table 2
    [ ("area_m2", [VFloat (flt 50 0); VFloat (flt 805 (-1))]);
      ("price", [VFloat (flt 100000 0); VFloat (flt 55500 0)]);
      ("price_per_sqm", [VFloat (flt 2000 0); VFloat (flt 689 0)]) ]%string.

(** A table whose price and area are clean, the first row without a
    price per square metre. *)
Definition derivable : DataCleaning.t :=
  table 2
    [ ("area_m2", [VFloat (flt 50 0); VFloat (flt 80 0)]);
      ("price", [VFloat (flt 100000 0); VFloat (flt 55500 0)]);
      ("price_per_sqm", [NaN; VStr RATE_1130]) ]%string.

(** A table without a price column. *)
Definition unpriced : DataCleaning.t :=
  table 1
    [ ("area_m2", [VStr (u "50მ²")]);
      ("district_name", [VStr VAKE]) ]%string.

(** A table of numbers only, with a price beyond the integers that a
    float holds exactly: 2^53 + 1. *)
Definition wide_price : DataCleaning.t :=
  table 1
    [ ("area_m2", [VFloat (flt 1 0)]);
      ("price", [VInt 9007199254740993]);
      ("price_per_sqm", [NaN]) ]%string.

End Tables.

(* ================================================================= *)
(** * Properties *)

(** ** Text *)

Section StrFacts.

Implicit Types s p m : pystr.

Lemma is_prefix_spec p s :
  Str.is_prefix p s = true <-> exists post, s = p ++ post.
Proof.
  revert s. induction p as [|a p IH]; intros s; cbn.
  - split; [intros _; now exists s | reflexivity].
  - destruct s as [|b s].
    + split; [discriminate | intros [post E]; discriminate].
    + rewrite andb_true_iff, Z.eqb_eq, IH. split.
      * intros [-> [post ->]]. now exists post.
      * intros [post E]. injection E as -> ->. split; [reflexivity | now exists post].
Qed.

Lemma is_prefix_app p s : Str.is_prefix p (p ++ s) = true.
Proof. apply is_prefix_spec. now exists s. Qed.

Lemma contains_spec m s :
  Str.contains m s = true <-> exists pre post, s = pre ++ m ++ post.
Proof.
  induction s as [|c s IH]; cbn [Str.contains]; rewrite orb_true_iff, is_prefix_spec.
  - split.
    + intros [[post E]|]; [|discriminate]. exists [], post. exact E.
    + intros [pre [post E]]. left. destruct pre; [now exists post|discriminate].
  - rewrite IH. split.
    + intros [[post E]|[pre [post E]]].
      * exists [], post. exact E.
      * exists (c :: pre), post. now rewrite E.
    + intros [[|c' pre] [post E]].
      * left. now exists post.
      * right. injection E as -> ->. now exists pre, post.
Qed.

Lemma endswith_app s suffix : Str.endswith (s ++ suffix) suffix = true.
Proof. unfold Str.endswith. rewrite rev_app_distr. apply is_prefix_app. Qed.

Lemma endswith_spec s suffix :
  Str.endswith s suffix = true <-> exists pre, s = pre ++ suffix.
Proof.
  unfold Str.endswith. rewrite is_prefix_spec. split.
  - intros [post E]. exists (rev post).
    rewrite <- (rev_involutive s), E, rev_app_distr. now rewrite rev_involutive.
  - intros [pre ->]. exists (rev pre). apply rev_app_distr.
Qed.

Lemma slice_to_neg_app s suffix :
  Str.slice_to_neg (length suffix) (s ++ suffix) = s.
Proof.
  unfold Str.slice_to_neg. rewrite length_app.
  replace (length s + length suffix - length suffix)%nat with (length s) by lia.
  now rewrite take_app_length.
Qed.

(** [lstrip] removes a run of white space from the front: what is left
    does not start with white space. *)
Lemma lstrip_spec s :
  exists l, s = l ++ Str.lstrip s /\ Forall (fun c => Str.is_space c = true) l
            /\ match Str.lstrip s with
               | [] => True
               | c :: _ => Str.is_space c = false
               end.
Proof.
  induction s as [|c s (l & E & Hl & Hh)]; cbn.
  - now exists [].
  - destruct (Str.is_space c) eqn:Hc.
    + exists (c :: l). split; [cbn; congruence|]. split; [now constructor|exact Hh].
    + exists []. repeat split; [constructor | exact Hc].
Qed.

Lemma lstrip_all_space s :
  Forall (fun c => Str.is_space c = true) s -> Str.lstrip s = [].
Proof. induction 1 as [|c s Hc _ IH]; cbn; [reflexivity | now rewrite Hc]. Qed.

Lemma strip_all_space s :
  Forall (fun c => Str.is_space c = true) s -> Str.strip s = [].
Proof. intros Hs. unfold Str.strip, Str.rstrip. now rewrite (lstrip_all_space s Hs). Qed.

(** A needle that starts with a character that is no white space is
    found in a text exactly when it is found behind the leading white
    space of that text. *)
Lemma contains_skip_space m s l :
  match m with [] => False | c :: _ => Str.is_space c = false end ->
  Forall (fun c => Str.is_space c = true) l ->
  Str.contains m (l ++ s) = Str.contains m s.
Proof.
  intros Hm Hl. induction Hl as [|c l Hc _ IH]; [reflexivity|].
  cbn [app Str.contains]. rewrite IH.
  destruct m as [|a m]; [contradiction|]. cbn [Str.is_prefix].
  destruct (Z.eqb_spec a c) as [->|]; [congruence | reflexivity].
Qed.

Lemma contains_lstrip m s :
  match m with [] => False | c :: _ => Str.is_space c = false end ->
  Str.contains m (Str.lstrip s) = Str.contains m s.
Proof.
  intros Hm. destruct (lstrip_spec s) as (l & E & Hl & _).
  rewrite E at 2. symmetry. now apply contains_skip_space.
Qed.

Lemma contains_rev m s : Str.contains (rev m) (rev s) = Str.contains m s.
Proof.
  apply eq_true_iff_eq. rewrite !contains_spec. split.
  - intros (pre & post & E). exists (rev post), (rev pre).
    rewrite <- (rev_involutive s), E, !rev_app_distr, rev_involutive.
    now rewrite <- app_assoc.
  - intros (pre & post & ->). exists (rev post), (rev pre).
    rewrite !rev_app_distr. now rewrite <- app_assoc.
Qed.

(** [strip] neither hides nor creates an occurrence of a needle that
    starts and ends with characters that are no white space. *)
Lemma contains_strip m s :
  match m with [] => False | c :: _ => Str.is_space c = false end ->
  match rev m with [] => False | c :: _ => Str.is_space c = false end ->
  Str.contains m (Str.strip s) = Str.contains m s.
Proof.
  intros Hm Hr. unfold Str.strip, Str.rstrip.
  rewrite <- (contains_lstrip m s Hm).
  rewrite <- (contains_rev m (rev _)), rev_involutive.
  rewrite (contains_lstrip (rev m) _ Hr). apply contains_rev.
Qed.

End StrFacts.

(* ================================================================= *)
(** ** The transaction type of a description *)

Section TransactionType.

Import DataCleaning.

Lemma contains_strip_marker (m s : pystr) :
  m ∈ markers -> Str.contains m (Str.strip s) = Str.contains m s.
Proof.
  intros Hm. apply contains_strip; unfold markers in Hm;
    repeat (apply elem_of_cons in Hm as [->|Hm]); try (vm_compute; reflexivity);
    now apply elem_of_nil in Hm.
Qed.

(** The daily marker starts with the general one, so the general marker
    occurs wherever the daily one does. *)
Lemma daily_contains_rent (s : pystr) :
  Str.contains DAILY_RENT s = true -> Str.contains RENT s = true.
Proof.
  rewrite !contains_spec. intros (pre & post & ->).
  exists pre, (drop (length RENT) DAILY_RENT ++ post).
  rewrite (app_assoc RENT). f_equal.
Qed.

Lemma extract_transaction_type_eq (s : pystr) :
  extract_transaction_type (VStr s) =
    if Str.contains FOR_SALE s then VStr FOR_SALE
    else if Str.contains PLEDGE s then VStr PLEDGE
    else if Str.contains DAILY_RENT s then VStr DAILY_RENT
    else if Str.contains RENT s then VStr MONTHLY_RENT
    else VNone.
Proof.
  unfold extract_transaction_type.
  rewrite !contains_strip_marker by (unfold markers; set_solver).
  reflexivity.
Qed.

(** C6.  The classifier returns one of four fixed labels or the missing
    marker, by the first marker found in the order for-sale, pledge,
    daily rental, rental; the label of the last is the monthly-rental
    label, which differs from the marker.  A description with the daily
    marker also contains the general rental marker, yet it is never
    labelled monthly, and it is labelled daily unless an earlier marker
    is present.  A description that is no text, or has no marker, gives
    the missing marker. *)
Theorem transaction_type_first_match (desc : value) :
  let r := extract_transaction_type desc in
  (r = VNone \/ r = VStr FOR_SALE \/ r = VStr PLEDGE
   \/ r = VStr DAILY_RENT \/ r = VStr MONTHLY_RENT)
  /\ (forall s : pystr, desc = VStr s ->
        r = if Str.contains FOR_SALE s then VStr FOR_SALE
            else if Str.contains PLEDGE s then VStr PLEDGE
            else if Str.contains DAILY_RENT s then VStr DAILY_RENT
            else if Str.contains RENT s then VStr MONTHLY_RENT
            else VNone)
  /\ (forall s : pystr, desc = VStr s -> Str.contains DAILY_RENT s = true ->
        Str.contains RENT s = true
        /\ r <> VStr MONTHLY_RENT
        /\ (Str.contains FOR_SALE s = false -> Str.contains PLEDGE s = false ->
            r = VStr DAILY_RENT))
  /\ (forall s : pystr, desc = VStr s ->
        Forall (fun m => Str.contains m s = false) markers -> r = VNone)
  /\ (Py.is_str desc = false -> r = VNone)
  /\ MONTHLY_RENT <> RENT /\ MONTHLY_RENT <> DAILY_RENT.
Proof.
  cbv zeta. split; [|split; [|split; [|split; [|split; [|split]]]]].
  - destruct desc; try (now left). rewrite extract_transaction_type_eq.
    repeat (destruct (Str.contains _ _)); tauto.
  - intros s ->. apply extract_transaction_type_eq.
  - intros s -> Hd. rewrite extract_transaction_type_eq, Hd.
    split; [now apply daily_contains_rent|]. split.
    + repeat (destruct (Str.contains _ _)); discriminate.
    + now intros -> ->.
  - intros s -> Hm. rewrite extract_transaction_type_eq.
    unfold markers in Hm. rewrite !Forall_cons in Hm.
    destruct Hm as (-> & -> & -> & -> & _). reflexivity.
  - destruct desc; try reflexivity. discriminate.
  - discriminate.
  - discriminate.
Qed.

End TransactionType.

(* ================================================================= *)
(** ** Columns *)

Section PdFacts.

Context {A B : Type}.

Lemma res_mapM_total (g : A -> B) (l : list A) :
  res_mapM (fun x => Ok (g x)) l = Ok (g <$> l).
Proof. induction l as [|a l IH]; cbn; [reflexivity | now rewrite IH]. Qed.

Lemma res_mapM_length (f : A -> res B) (l : list A) (l' : list B) :
  res_mapM f l = Ok l' -> length l' = length l.
Proof.
  revert l'. induction l as [|a l IH]; intros l'; cbn.
  - now intros [= <-].
  - destruct (f a) as [b|]; [|discriminate]. cbn.
    destruct (res_mapM f l) as [bs|]; [|discriminate]. cbn.
    intros [= <-]. cbn. now rewrite (IH bs).
Qed.

(** Cell [i] of the result is computed from cell [i] of the argument. *)
Lemma res_mapM_lookup (f : A -> res B) (l : list A) (l' : list B) :
  res_mapM f l = Ok l' ->
  forall (i : nat) (a : A), l !! i = Some a ->
    exists b, f a = Ok b /\ l' !! i = Some b.
Proof.
  revert l'. induction l as [|a0 l IH]; intros l'; cbn.
  - intros _ i a Hi. now destruct i.
  - destruct (f a0) as [b0|] eqn:E0; [|discriminate]. cbn.
    destruct (res_mapM f l) as [bs|]; [|discriminate]. cbn.
    intros [= <-] [|i] a; cbn.
    + intros [= <-]. now exists b0.
    + now apply IH.
Qed.

(** A traversal aborts exactly when the function raises on some cell. *)
Lemma res_mapM_ok (f : A -> res B) (l : list A) :
  Forall (fun a => is_ok (f a) = true) l -> exists l', res_mapM f l = Ok l'.
Proof.
  induction 1 as [|a l Ha _ [bs IH]]; cbn.
  - now exists [].
  - destruct (f a) as [b|]; [|discriminate]. cbn. rewrite IH. cbn. now exists (b :: bs).
Qed.

Lemma res_mapM_raise (f : A -> res B) (l1 l2 : list A) (a : A) (e : exn) :
  Forall (fun a => is_ok (f a) = true) l1 -> f a = Raise e ->
  res_mapM f (l1 ++ a :: l2) = Raise e.
Proof.
  intros H1 Ha. induction H1 as [|a1 l1 Ha1 _ IH]; cbn.
  - now rewrite Ha.
  - destruct (f a1); [|discriminate]. cbn. now rewrite IH.
Qed.

End PdFacts.

Section DtypeFacts.

Lemma infer_dtype_cases (col : Pd.Series) :
  Pd.infer_dtype col = col \/ Pd.infer_dtype col = Pd.to_float64 <$> col.
Proof. unfold Pd.infer_dtype. destruct (_ && _); [now right | now left]. Qed.

Lemma infer_dtype_length (col : Pd.Series) :
  length (Pd.infer_dtype col) = length col.
Proof. destruct (infer_dtype_cases col) as [-> | ->]; [reflexivity | apply length_fmap]. Qed.

(** The stored cell is the computed one, or its float when the column
    is stored as float64. *)
Lemma infer_dtype_lookup (col : Pd.Series) (i : nat) (v : value) :
  col !! i = Some v ->
  Pd.infer_dtype col !! i = Some v
  \/ Pd.infer_dtype col !! i = Some (Pd.to_float64 v).
Proof.
  intros Hi. destruct (infer_dtype_cases col) as [-> | ->]; [now left | right].
  now rewrite list_lookup_fmap, Hi.
Qed.

Lemma to_float64_floats (col : Pd.Series) :
  forallb is_float col = true -> Pd.to_float64 <$> col = col.
Proof.
  induction col as [|v col IH]; cbn; [reflexivity|].
  intros [Hv Hc]%andb_true_iff. rewrite (IH Hc). now destruct v.
Qed.

(** A column of floats, and a column of integers, is stored as it is. *)
Lemma infer_dtype_floats (col : Pd.Series) :
  forallb is_float col = true -> Pd.infer_dtype col = col.
Proof.
  intros Hf. destruct (infer_dtype_cases col) as [-> | ->];
    [reflexivity | now apply to_float64_floats].
Qed.

Lemma infer_dtype_ints (col : Pd.Series) :
  forallb is_int col = true -> Pd.infer_dtype col = col.
Proof.
  intros Hi. unfold Pd.infer_dtype.
  replace (forallb Pd.fits_float64 col) with (forallb Pd.is_int64 col).
  - now destruct (forallb Pd.is_int64 col), (existsb Pd.is_number col).
  - induction col as [|v col IH]; cbn; [reflexivity|].
    cbn in Hi. apply andb_true_iff in Hi as [Hv Hc].
    rewrite (IH Hc). now destruct v.
Qed.

Lemma apply_length (f : value -> res value) (col col' : Pd.Series) :
  Pd.apply f col = Ok col' -> length col' = length col.
Proof.
  unfold Pd.apply. destruct (res_mapM f col) as [l|] eqn:E; [|discriminate].
  cbn. intros [= <-]. rewrite infer_dtype_length. now apply res_mapM_length in E.
Qed.

Lemma apply_lookup (f : value -> res value) (col col' : Pd.Series) :
  Pd.apply f col = Ok col' ->
  forall (i : nat) (v : value), col !! i = Some v ->
    exists w, f v = Ok w
              /\ (col' !! i = Some w \/ col' !! i = Some (Pd.to_float64 w)).
Proof.
  unfold Pd.apply. destruct (res_mapM f col) as [l|] eqn:E; [|discriminate].
  cbn. intros [= <-] i v Hi.
  destruct (res_mapM_lookup f col l E i v Hi) as (w & Hw & Hl).
  exists w. split; [exact Hw | now apply infer_dtype_lookup].
Qed.

Lemma apply_total (g : value -> value) (col : Pd.Series) :
  Pd.apply (fun x => Ok (g x)) col = Ok (Pd.infer_dtype (g <$> col)).
Proof. unfold Pd.apply. now rewrite res_mapM_total. Qed.

Lemma rows_length (df : Pd.DataFrame) : length (Pd.rows df) = Pd.nrows df.
Proof. unfold Pd.rows. now rewrite length_fmap, length_seq. Qed.

Lemma apply_rows_length (f : Pd.Row -> res value) (df : Pd.DataFrame) (col : Pd.Series) :
  Pd.apply_rows f df = Ok col -> length col = Pd.nrows df.
Proof.
  unfold Pd.apply_rows. destruct (res_mapM f _) as [l|] eqn:E; [|discriminate].
  cbn. intros [= <-]. rewrite infer_dtype_length.
  apply res_mapM_length in E. now rewrite E, rows_length.
Qed.

Lemma fillna_length (x : value) (col : Pd.Series) :
  length (Pd.fillna x col) = length col.
Proof. apply length_fmap. Qed.

Lemma astype_str_length (col : Pd.Series) : length (Pd.astype_str col) = length col.
Proof. apply length_fmap. Qed.

End DtypeFacts.

(* ================================================================= *)
(** ** Filling the district names *)

Section DistrictName.

Import DataCleaning.

Lemma fillna_lookup (x : value) (col : Pd.Series) (i : nat) (v : value) :
  col !! i = Some v ->
  Pd.fillna x col !! i = Some (if Pd.isna v then x else v).
Proof. intros Hi. unfold Pd.fillna. now rewrite list_lookup_fmap, Hi. Qed.

Lemma fillna_no_missing (x : value) (col : Pd.Series) :
  Pd.isna x = false -> Forall (fun v => Pd.isna v = false) (Pd.fillna x col).
Proof.
  intros Hx. unfold Pd.fillna. apply Forall_fmap, Forall_forall.
  intros v _. cbn. now destruct (Pd.isna v) eqn:E.
Qed.

(** C7.  After the filler has run no cell of the district column is
    missing: a cell that was missing holds the fixed text, and a cell
    that was present holds what it held, code point for code point. *)
Theorem fill_district_name_nulls_spec (self : DataCleaning.t) (col : Pd.Series) :
  Pd.columns (apartments_df self) !! "district_name" = Some col ->
  exists (self' : DataCleaning.t) (col' : Pd.Series),
    __fill_district_name_nulls self = Ok self'
    /\ Pd.columns (apartments_df self') !! "district_name" = Some col'
    /\ length col' = length col
    /\ Forall (fun v => Pd.isna v = false) col'
    /\ (forall (i : nat) (v : value), col !! i = Some v ->
          Pd.isna v = true -> col' !! i = Some (VStr NOT_PROVIDED))
    /\ (forall (i : nat) (v : value), col !! i = Some v ->
          Pd.isna v = false -> col' !! i = Some v).
Proof.
  intros Hc. unfold __fill_district_name_nulls, Pd.getitem. rewrite Hc. cbn.
  eexists _, (Pd.fillna (VStr NOT_PROVIDED) col). split; [reflexivity|].
  split; [cbn; apply lookup_insert_eq|].
  split; [apply fillna_length|].
  split; [now apply fillna_no_missing|].
  split; intros i v Hi Hv; rewrite (fillna_lookup _ _ _ _ Hi), Hv; reflexivity.
Qed.

End DistrictName.

(* ================================================================= *)
(** ** Rows and columns are kept *)

Section Rows.

Context `{Library}.

Import DataCleaning.

Lemma assigns_only_refl (c : string) (df : Pd.DataFrame) : assigns_only c df df.
Proof. unfold assigns_only. repeat split; try done. set_solver. Qed.

Lemma assigns_only_setitem (c : string) (df : Pd.DataFrame) (col : Pd.Series) :
  (Pd.well_formed df -> length col = Pd.nrows df) ->
  assigns_only c df (Pd.setitem df c col).
Proof.
  intros Hlen. unfold assigns_only, Pd.setitem. cbn. repeat split.
  - intros c' Hc. now apply lookup_insert_ne.
  - rewrite dom_insert. set_solver.
  - rewrite dom_insert. set_solver.
  - intros Hwf c' col'. cbn. destruct (decide (c = c')) as [<-|Hne].
    + rewrite lookup_insert_eq. intros [= <-]. now apply Hlen.
    + rewrite lookup_insert_ne by done. apply Hwf.
Qed.

Lemma assigns_only_setitem_twice (c : string) (df : Pd.DataFrame) (col1 col2 : Pd.Series) :
  (Pd.well_formed df -> length col2 = Pd.nrows df) ->
  assigns_only c df (Pd.setitem (Pd.setitem df c col1) c col2).
Proof.
  intros Hlen.
  replace (Pd.setitem (Pd.setitem df c col1) c col2) with (Pd.setitem df c col2).
  - now apply assigns_only_setitem.
  - unfold Pd.setitem. cbn. now rewrite insert_insert_eq.
Qed.

Lemma getitem_length (df : Pd.DataFrame) (c : string) (col : Pd.Series) :
  Pd.getitem df c = Ok col -> Pd.well_formed df -> length col = Pd.nrows df.
Proof.
  unfold Pd.getitem. destruct (Pd.columns df !! c) as [col0|] eqn:E; [|discriminate].
  intros [= <-] Hwf. now apply (Hwf c).
Qed.

Lemma getitem_setitem (df : Pd.DataFrame) (c : string) (col : Pd.Series) :
  Pd.getitem (Pd.setitem df c col) c = Ok col.
Proof. unfold Pd.getitem, Pd.setitem. cbn. now rewrite lookup_insert_eq. Qed.

Lemma step_price (self : DataCleaning.t) :
  assigns_only "price" (apartments_df self)
    (apartments_df (after (__clean_and_transform_price self) self)).
Proof.
  unfold __clean_and_transform_price.
  destruct (Pd.getitem _ _) as [col|] eqn:Eg; cbn; [|apply assigns_only_refl].
  destruct (Pd.apply _ col) as [col'|] eqn:Ea; cbn; [|apply assigns_only_refl].
  apply assigns_only_setitem. intros Hwf.
  rewrite (apply_length _ _ _ Ea). now apply (getitem_length _ _ _ Eg).
Qed.

Lemma step_area (self : DataCleaning.t) :
  assigns_only "area_m2" (apartments_df self)
    (apartments_df (after (__clean_area_m2 self) self)).
Proof.
  unfold __clean_area_m2.
  destruct (Pd.getitem _ _) as [col|] eqn:Eg; cbn; [|apply assigns_only_refl].
  rewrite apply_total. cbn. rewrite getitem_setitem. cbn.
  apply assigns_only_setitem_twice. intros Hwf.
  unfold Pd.to_numeric. rewrite !infer_dtype_length, length_fmap, infer_dtype_length, length_fmap.
  now apply (getitem_length _ _ _ Eg).
Qed.

Lemma step_price_per_sqm (self : DataCleaning.t) :
  assigns_only "price_per_sqm" (apartments_df self)
    (apartments_df (after (__clean_price_per_sqm self) self)).
Proof.
  unfold __clean_price_per_sqm.
  destruct (Pd.apply_rows _ _) as [col|] eqn:Ea; cbn; [|apply assigns_only_refl].
  apply assigns_only_setitem. intros _. now apply (apply_rows_length _ _ _ Ea).
Qed.

Lemma step_upload_date (now_year : Z) (self : DataCleaning.t) :
  assigns_only "upload_date" (apartments_df self)
    (apartments_df (after (__transform_upload_date now_year self) self)).
Proof.
  unfold __transform_upload_date.
  destruct (Pd.getitem _ _) as [col|] eqn:Eg; cbn; [|apply assigns_only_refl].
  rewrite getitem_setitem. cbn.
  destruct (Pd.apply _ _) as [col'|] eqn:Ea; cbn; [|apply assigns_only_refl].
  apply assigns_only_setitem_twice. intros Hwf.
  rewrite (apply_length _ _ _ Ea), astype_str_length.
  now apply (getitem_length _ _ _ Eg).
Qed.

Lemma step_transaction_type (self : DataCleaning.t) :
  assigns_only "transaction_type" (apartments_df self)
    (apartments_df (after (__new_transaction_type_col self) self)).
Proof.
  unfold __new_transaction_type_col.
  destruct (Pd.getitem _ _) as [col|] eqn:Eg; cbn; [|apply assigns_only_refl].
  rewrite apply_total. cbn.
  apply assigns_only_setitem. intros Hwf.
  rewrite infer_dtype_length, length_fmap. now apply (getitem_length _ _ _ Eg).
Qed.

Lemma step_district_name (self : DataCleaning.t) :
  assigns_only "district_name" (apartments_df self)
    (apartments_df (after (__fill_district_name_nulls self) self)).
Proof.
  unfold __fill_district_name_nulls.
  destruct (Pd.getitem _ _) as [col|] eqn:Eg; cbn; [|apply assigns_only_refl].
  apply assigns_only_setitem. intros Hwf.
  rewrite fillna_length. now apply (getitem_length _ _ _ Eg).
Qed.

Lemma after_ok (r : res DataCleaning.t) (self self' : DataCleaning.t) :
  r = Ok self' -> after r self = self'.
Proof. now intros ->. Qed.

Lemma getitem_ok_dom (df : Pd.DataFrame) (c : string) (col : Pd.Series) :
  Pd.getitem df c = Ok col -> c ∈ dom (Pd.columns df).
Proof.
  unfold Pd.getitem. destruct (Pd.columns df !! c) eqn:E; [|discriminate].
  intros _. apply elem_of_dom. now exists l.
Qed.

(** A step that returns has found the column it reads. *)
Lemma step_ok_reads (self self' : DataCleaning.t) (now_year : Z) :
  (__clean_and_transform_price self = Ok self' ->
     "price" ∈ dom (Pd.columns (apartments_df self)))
  /\ (__clean_area_m2 self = Ok self' ->
     "area_m2" ∈ dom (Pd.columns (apartments_df self)))
  /\ (__transform_upload_date now_year self = Ok self' ->
     "upload_date" ∈ dom (Pd.columns (apartments_df self)))
  /\ (__new_transaction_type_col self = Ok self' ->
     "transaction_type" ∈ dom (Pd.columns (apartments_df self')))
  /\ (__fill_district_name_nulls self = Ok self' ->
     "district_name" ∈ dom (Pd.columns (apartments_df self))).
Proof.
  unfold __clean_and_transform_price, __clean_area_m2, __transform_upload_date,
    __new_transaction_type_col, __fill_district_name_nulls.
  repeat split;
    (destruct (Pd.getitem _ _) as [col|] eqn:Eg; [|discriminate]); intros E;
    try (now apply getitem_ok_dom in Eg).
  cbn in E. rewrite apply_total in E. cbn in E. injection E as <-.
  cbn. rewrite dom_insert. set_solver.
Qed.

Lemma dom_kept (d d' : gset string) (c : string) :
  d ⊆ d' -> d' ⊆ d ∪ {[c]} -> c ∈ d -> d' = d.
Proof. set_solver. Qed.

Lemma dom_grown (d d' : gset string) (c : string) :
  d ⊆ d' -> d' ⊆ d ∪ {[c]} -> c ∈ d' -> d' = d ∪ {[c]}.
Proof. set_solver. Qed.

(** C9.  No step adds or removes a row.  Whether a step returns or
    raises, the table it leaves has the rows of the table it found: the
    same number of rows, every column but the one it assigns unchanged
    cell for cell, and all columns of the length of the table.  A run of
    [main] that returns has assigned six columns, of which only
    [transaction_type] is new. *)
Theorem no_row_added_or_removed (now_year : Z) (self : DataCleaning.t) :
  Forall (fun sc : (DataCleaning.t -> res DataCleaning.t) * string =>
            assigns_only sc.2 (apartments_df self)
              (apartments_df (after (sc.1 self) self)))
    (steps now_year)
  /\ forall self' : DataCleaning.t, main now_year self = Ok self' ->
       let df := apartments_df self in
       let df' := apartments_df self' in
       Pd.nrows df' = Pd.nrows df
       /\ (Pd.well_formed df -> Pd.well_formed df')
       /\ (forall c : string, c ∉ (steps now_year).*2 ->
             Pd.columns df' !! c = Pd.columns df !! c)
       /\ ("price_per_sqm" ∈ dom (Pd.columns df) ->
             dom (Pd.columns df') = dom (Pd.columns df) ∪ {["transaction_type"]})
       /\ ("price_per_sqm" ∈ dom (Pd.columns df) ->
           "transaction_type" ∉ dom (Pd.columns df) ->
             size (dom (Pd.columns df')) = S (size (dom (Pd.columns df)))).
Proof.
  split.
  - unfold steps. repeat apply Forall_cons_2; cbn [fst snd]; try apply Forall_nil_2.
    + apply step_price.
    + apply step_area.
    + apply step_price_per_sqm.
    + apply step_upload_date.
    + apply step_transaction_type.
    + apply step_district_name.
  - intros self6 Hmain. unfold main in Hmain.
    destruct (__clean_and_transform_price self) as [s1|] eqn:E1; [|discriminate].
    cbn in Hmain.
    destruct (__clean_area_m2 s1) as [s2|] eqn:E2; [|discriminate]. cbn in Hmain.
    destruct (__clean_price_per_sqm s2) as [s3|] eqn:E3; [|discriminate]. cbn in Hmain.
    destruct (__transform_upload_date now_year s3) as [s4|] eqn:E4; [|discriminate].
    cbn in Hmain.
    destruct (__new_transaction_type_col s4) as [s5|] eqn:E5; [|discriminate].
    cbn in Hmain.
    pose proof (step_price self) as (N1 & K1 & L1 & U1 & W1).
    pose proof (step_area s1) as (N2 & K2 & L2 & U2 & W2).
    pose proof (step_price_per_sqm s2) as (N3 & K3 & L3 & U3 & W3).
    pose proof (step_upload_date now_year s3) as (N4 & K4 & L4 & U4 & W4).
    pose proof (step_transaction_type s4) as (N5 & K5 & L5 & U5 & W5).
    pose proof (step_district_name s5) as (N6 & K6 & L6 & U6 & W6).
    rewrite E1 in *. rewrite E2 in *. rewrite E3 in *. rewrite E4 in *.
    rewrite E5 in *. rewrite Hmain in *. cbn [after] in *.
    destruct (step_ok_reads self s1 now_year) as (R1 & _).
    destruct (step_ok_reads s1 s2 now_year) as (_ & R2 & _).
    destruct (step_ok_reads s3 s4 now_year) as (_ & _ & R4 & _).
    destruct (step_ok_reads s4 s5 now_year) as (_ & _ & _ & R5 & _).
    destruct (step_ok_reads s5 self6 now_year) as (_ & _ & _ & _ & R6).
    specialize (R1 E1). specialize (R2 E2). specialize (R4 E4).
    specialize (R5 E5). specialize (R6 Hmain).
    cbv zeta.
    assert (Hdom : "price_per_sqm" ∈ dom (Pd.columns (apartments_df self)) ->
                   dom (Pd.columns (apartments_df self6))
                   = dom (Pd.columns (apartments_df self)) ∪ {["transaction_type"]}).
    { intros R3.
      rewrite (dom_kept _ _ _ L6 U6 R6), (dom_grown _ _ _ L5 U5 R5).
      rewrite (dom_kept _ _ _ L4 U4 R4).
      assert (D1 := dom_kept _ _ _ L1 U1 R1).
      assert (D2 := dom_kept _ _ _ L2 U2 R2).
      rewrite (dom_kept _ _ _ L3 U3), D2, D1; [reflexivity|].
      now rewrite D2, D1. }
    split; [congruence|]. split; [tauto|]. split; [|split].
    + intros c Hc. unfold steps in Hc. cbn in Hc.
      rewrite K6, K5, K4, K3, K2, K1; [reflexivity|..]; intros ->; apply Hc; set_solver.
    + exact Hdom.
    + intros R3 Hnew. rewrite (Hdom R3), size_union, size_singleton by set_solver. lia.
Qed.

End Rows.

(* ================================================================= *)
(** ** The area column *)

Section Area.

Context `{Library}.

Import DataCleaning.

Lemma to_numeric_value_fits (c : Pd.Series) :
  forallb Pd.fits_float64 c = true ->
  Pd.to_numeric_value <$> (Pd.to_float64 <$> c)
    = Pd.to_float64 <$> (Pd.to_numeric_value <$> c)
  /\ forallb is_float (Pd.to_float64 <$> (Pd.to_numeric_value <$> c)) = true
  /\ forallb Pd.fits_float64 (Pd.to_numeric_value <$> c) = true
  /\ (existsb Pd.is_number c = true ->
      existsb Pd.is_number (Pd.to_numeric_value <$> c) = true)
  /\ (forallb Pd.is_int64 c = false ->
      forallb Pd.is_int64 (Pd.to_numeric_value <$> c) = false).
Proof.
  induction c as [|v c IH]; [now cbn|].
  cbn [forallb]. intros [Hv Hc]%andb_true_iff.
  destruct (IH Hc) as (I1 & I2 & I3 & I4 & I5). clear IH.
  rewrite !fmap_cons. cbn [forallb existsb].
  rewrite I1, I2, I3.
  destruct v as [|s|n|x|d]; try discriminate; cbn; cbn in Hv;
    try rewrite Hv; cbn; repeat split; try reflexivity; try assumption;
    try (intros _; reflexivity).
Qed.

(** Reading the numbers of a column is the same before and after the
    column has been given its dtype. *)
Lemma to_numeric_infer_dtype (c : Pd.Series) :
  Pd.to_numeric (Pd.infer_dtype c) = Pd.to_numeric c.
Proof.
  unfold Pd.to_numeric. unfold Pd.infer_dtype at 2.
  destruct (forallb Pd.fits_float64 c) eqn:Cf; [|reflexivity].
  destruct (existsb Pd.is_number c) eqn:Cn; [|reflexivity].
  destruct (forallb Pd.is_int64 c) eqn:Ci; [reflexivity|]. cbn [andb negb].
  destruct (to_numeric_value_fits c Cf) as (E1 & E2 & E3 & E4 & E5).
  rewrite E1, (infer_dtype_floats _ E2).
  unfold Pd.infer_dtype. now rewrite E3, (E4 Cn), (E5 Ci).
Qed.

Lemma clean_area_m2_eq (self : DataCleaning.t) (col : Pd.Series) :
  Pd.columns (apartments_df self) !! "area_m2" = Some col ->
  __clean_area_m2 self
  = Ok (with_df self
          (Pd.setitem (apartments_df self) "area_m2"
             (Pd.infer_dtype (area_value <$> col)))).
Proof.
  intros Hc.
  assert (Eg : Pd.getitem (apartments_df self) "area_m2" = Ok col)
    by (unfold Pd.getitem; now rewrite Hc).
  unfold __clean_area_m2. rewrite Eg. cbn.
  rewrite apply_total. cbn. rewrite getitem_setitem. cbn.
  rewrite to_numeric_infer_dtype. unfold Pd.to_numeric.
  rewrite <- list_fmap_compose. do 2 f_equal.
  unfold Pd.setitem. cbn. now rewrite insert_insert_eq.
Qed.

(** The four cases of a cell of the area column. *)
Lemma area_value_unit (n : pystr) (k : number) :
  to_numeric_text n = Some k ->
  area_value (VStr (n ++ SQUARE_METRES)) = value_of_number k.
Proof.
  intros Hn. unfold area_value, strip_unit. rewrite endswith_app.
  change 2%nat with (length SQUARE_METRES). rewrite slice_to_neg_app. cbn.
  now rewrite Hn.
Qed.

Lemma area_value_numeral (s : pystr) (k : number) :
  to_numeric_text s = Some k -> area_value (VStr s) = value_of_number k.
Proof.
  intros Hs. unfold area_value, strip_unit.
  destruct (Str.endswith s SQUARE_METRES) eqn:E.
  - apply to_numeric_text_unit in E. congruence.
  - cbn. now rewrite Hs.
Qed.

Lemma area_value_number (x : value) : Pd.is_number x = true -> area_value x = x.
Proof. now destruct x. Qed.

Lemma area_value_missing (x : value) :
  Pd.is_number x = false ->
  (forall s : pystr, x = VStr s ->
     to_numeric_text s = None
     /\ forall n : pystr, s = n ++ SQUARE_METRES -> to_numeric_text n = None) ->
  area_value x = NaN.
Proof.
  intros Hx Hs. destruct x as [|s|n|y|d]; try reflexivity; try discriminate.
  destruct (Hs s eq_refl) as [H1 H2]. unfold area_value, strip_unit.
  destruct (Str.endswith s SQUARE_METRES) eqn:E.
  - apply endswith_spec in E as [n ->].
    change 2%nat with (length SQUARE_METRES). rewrite slice_to_neg_app. cbn.
    now rewrite (H2 n eq_refl).
  - cbn. now rewrite H1.
Qed.

(** C8.  For every cell [x] of the area column: a numeral followed by
    the unit gives the number the numeral denotes; a number, or a
    numeral, gives its number; anything else gives the missing number.
    The step stores that value in the cell, an integer as a float when
    the column is stored as float64. *)
Theorem clean_area_m2_cells (self : DataCleaning.t) :
  (forall (n : pystr) (k : number), to_numeric_text n = Some k ->
     area_value (VStr (n ++ SQUARE_METRES)) = value_of_number k)
  /\ (forall (s : pystr) (k : number), to_numeric_text s = Some k ->
     area_value (VStr s) = value_of_number k)
  /\ (forall x : value, Pd.is_number x = true -> area_value x = x)
  /\ (forall x : value, Pd.is_number x = false ->
     (forall s : pystr, x = VStr s ->
        to_numeric_text s = None
        /\ forall n : pystr, s = n ++ SQUARE_METRES -> to_numeric_text n = None) ->
     area_value x = NaN)
  /\ (forall col : Pd.Series,
     Pd.columns (apartments_df self) !! "area_m2" = Some col ->
     exists (self' : DataCleaning.t) (col' : Pd.Series),
       __clean_area_m2 self = Ok self'
       /\ Pd.columns (apartments_df self') !! "area_m2" = Some col'
       /\ length col' = length col
       /\ forall (i : nat) (x : value), col !! i = Some x ->
            col' !! i = Some (area_value x)
            \/ exists n : Z, area_value x = VInt n
                             /\ col' !! i = Some (VFloat (Float.of_Z n))).
Proof.
  split; [exact area_value_unit|]. split; [exact area_value_numeral|].
  split; [exact area_value_number|]. split; [exact area_value_missing|].
  intros col Hc. rewrite (clean_area_m2_eq self col Hc).
  eexists _, _. split; [reflexivity|]. split; [cbn; apply lookup_insert_eq|].
  split; [now rewrite infer_dtype_length, length_fmap|].
  intros i x Hi.
  assert (Hi' : (area_value <$> col) !! i = Some (area_value x))
    by now rewrite list_lookup_fmap, Hi.
  destruct (infer_dtype_lookup _ _ _ Hi') as [E|E]; [now left|].
  destruct (area_value x) as [|s|n|y|d] eqn:Ex; try (now left).
  - exfalso. unfold area_value in Ex.
    destruct (strip_unit x) as [|s|n|y|d]; cbn in Ex; try discriminate.
    destruct (to_numeric_text s) as [[]|]; discriminate.
  - right. now exists n.
Qed.

(** On a column that is already numeric, all floats or all integers,
    the step changes nothing. *)
Lemma clean_area_m2_numeric (self : DataCleaning.t) (col : Pd.Series) :
  Pd.columns (apartments_df self) !! "area_m2" = Some col ->
  forallb is_float col = true \/ forallb is_int col = true ->
  __clean_area_m2 self = Ok self.
Proof.
  intros Hc Hn. rewrite (clean_area_m2_eq self col Hc). f_equal.
  assert (Ev : area_value <$> col = col).
  { clear Hc. induction col as [|v col IH]; [reflexivity|].
    rewrite fmap_cons, IH.
    - f_equal. apply area_value_number.
      destruct Hn as [Hn|Hn]; cbn in Hn; apply andb_true_iff in Hn as [Hv _];
        now destruct v.
    - destruct Hn as [Hn|Hn]; cbn in Hn; apply andb_true_iff in Hn as [_ Hn];
        [now left | now right]. }
  rewrite Ev.
  replace (Pd.infer_dtype col) with col
    by (destruct Hn as [Hn|Hn];
        [now rewrite infer_dtype_floats | now rewrite infer_dtype_ints]).
  destruct self as [[n cols] rate]. unfold with_df, Pd.setitem. cbn in *.
  now rewrite insert_id.
Qed.

End Area.

(* ================================================================= *)
(** ** The price column *)

Section Price.

Context `{Library}.

Import DataCleaning.

Lemma replace_absent (old : Z) (new s : pystr) :
  Forall (fun c => c <> old) s -> Str.replace old new s = s.
Proof.
  unfold Str.replace. induction 1 as [|c s Hc _ IH]; cbn; [reflexivity|].
  rewrite IH. now destruct (Z.eqb_spec c old).
Qed.

Lemma str_lower_nil : str_lower [] = [].
Proof. now rewrite str_lower_ascii by constructor. Qed.

(** C4.  A price whose normalized text contains the dollar sign is the
    number read from that text without the sign, and no rate is
    applied; a price without the sign whose normalized text reads as the
    number [n] is [round(n * rate)]. *)
Theorem parse_price_by_marker (rate : Float.t) (price : value) :
  let price_str := normalize_price price in
  (Str.contains [DOLLAR] price_str = true ->
   forall x : Float.t,
     Parse.float_of_str (Str.strip (Str.replace DOLLAR [] price_str)) = Ok x ->
     parse_price rate price = Ok (VFloat x))
  /\ (Str.contains [DOLLAR] price_str = false ->
      forall (n : Float.t) (k : Z),
        Parse.float_of_str price_str = Ok n ->
        Float.round (Float.mul n rate) = Ok k ->
        parse_price rate price = Ok (VInt k)).
Proof.
  cbv zeta. unfold parse_price. split.
  - intros -> x ->. reflexivity.
  - intros -> n k -> E. unfold mbind, res_bind at 1. now rewrite E.
Qed.

(** Text that reads as no number gives the missing marker. *)
Lemma parse_price_no_numeral (rate : Float.t) (price : value) :
  Str.contains [DOLLAR] (normalize_price price) = false ->
  Parse.float_of_str (normalize_price price) = Raise ValueError ->
  parse_price rate price = Ok VNone.
Proof. unfold parse_price. now intros -> ->. Qed.

Lemma parse_price_negotiable (rate : Float.t) :
  parse_price rate (VStr NEGOTIABLE) = Ok VNone.
Proof.
  assert (E : normalize_price (VStr NEGOTIABLE) = NEGOTIABLE).
  { unfold normalize_price. cbn [Py.str].
    replace (Str.strip (Str.replace COMMA [] NEGOTIABLE)) with NEGOTIABLE
      by (vm_compute; reflexivity).
    rewrite str_lower_ascii; [vm_compute; reflexivity|].
    unfold NEGOTIABLE, is_ascii. repeat constructor; lia. }
  apply parse_price_no_numeral; rewrite E; vm_compute; reflexivity.
Qed.

Lemma parse_price_blank (rate : Float.t) (s : pystr) :
  Forall (fun c => Str.is_space c = true) s ->
  parse_price rate (VStr s) = Ok VNone.
Proof.
  intros Hs.
  assert (E : normalize_price (VStr s) = []).
  { unfold normalize_price. cbn [Py.str].
    rewrite replace_absent.
    - now rewrite (strip_all_space s Hs), str_lower_nil.
    - eapply Forall_impl; [exact Hs|]. intros c Hc ->. discriminate. }
  apply parse_price_no_numeral; rewrite E; vm_compute; reflexivity.
Qed.

(** The only exception [parse_price] lets through is the
    [OverflowError] of rounding an infinity. *)
Lemma parse_price_raises (rate : Float.t) (price : value) (e : exn) :
  parse_price rate price = Raise e -> e = OverflowError.
Proof.
  unfold parse_price.
  destruct (Str.contains _ _).
  - destruct (Parse.float_of_str _) as [x|e'] eqn:E; cbn; [discriminate|].
    unfold Parse.float_of_str in E. destruct (_ ≫= _); [discriminate|].
    injection E as <-. discriminate.
  - destruct (Parse.float_of_str _) as [x|e'] eqn:E; cbn.
    + destruct (Float.mul x rate); cbn; try discriminate. now intros [= <-].
    + unfold Parse.float_of_str in E. destruct (_ ≫= _); [discriminate|].
      injection E as <-. discriminate.
Qed.

End Price.

(* ================================================================= *)
(** ** The price per square metre *)

Section PricePerSqm.

Context `{Library}.

Import DataCleaning.

(** The branch of [clean_row] for a missing price per square metre. *)
Lemma clean_row_derived (rate : Float.t) (row : Pd.Row) (pps p a : value) :
  row !! "price_per_sqm" = Some pps -> Pd.isna pps = true ->
  row !! "price" = Some p -> row !! "area_m2" = Some a ->
  clean_row rate row
  = try_except
      (x ← Py.int p; y ← Py.int a; q ← Py.floordiv x y; Ok (VInt q))
      [TypeError; ZeroDivisionError]
      (Ok VNone).
Proof.
  intros Hpps Hna Hp Ha. unfold clean_row, Pd.row_get.
  rewrite Hpps. cbn [mbind res_bind]. rewrite Hna, Hp. cbn [mbind res_bind].
  destruct (Py.int p) as [x|e]; cbn [mbind res_bind]; [|reflexivity].
  now rewrite Ha.
Qed.

(** It divides the integer parts, rounding down; a zero divisor and a
    [None] on either side give the missing marker. *)
Lemma clean_row_derived_quotient (rate : Float.t) (row : Pd.Row) (pps p a : value) (x y : Z) :
  row !! "price_per_sqm" = Some pps -> Pd.isna pps = true ->
  row !! "price" = Some p -> row !! "area_m2" = Some a ->
  Py.int p = Ok x -> Py.int a = Ok y ->
  clean_row rate row = Ok (if y =? 0 then VNone else VInt (x / y)).
Proof.
  intros Hpps Hna Hp Ha Hx Hy.
  rewrite (clean_row_derived rate row pps p a Hpps Hna Hp Ha), Hx. cbn [mbind res_bind].
  rewrite Hy. cbn [mbind res_bind]. unfold Py.floordiv.
  now destruct (y =? 0).
Qed.

(** A NaN, which is how a numeric column holds a missing value, is not
    caught: [int] raises [ValueError] for it. *)
Lemma clean_row_derived_nan_price (rate : Float.t) (row : Pd.Row) (pps a : value) :
  row !! "price_per_sqm" = Some pps -> Pd.isna pps = true ->
  row !! "price" = Some NaN -> row !! "area_m2" = Some a ->
  clean_row rate row = Raise ValueError.
Proof.
  intros Hpps Hna Hp Ha.
  now rewrite (clean_row_derived rate row pps NaN a Hpps Hna Hp Ha).
Qed.

Lemma clean_row_derived_nan_area (rate : Float.t) (row : Pd.Row) (pps p : value) (x : Z) :
  row !! "price_per_sqm" = Some pps -> Pd.isna pps = true ->
  row !! "price" = Some p -> row !! "area_m2" = Some NaN ->
  Py.int p = Ok x ->
  clean_row rate row = Raise ValueError.
Proof.
  intros Hpps Hna Hp Ha Hx.
  now rewrite (clean_row_derived rate row pps p NaN Hpps Hna Hp Ha), Hx.
Qed.

(** One row on which [clean_row] raises aborts the whole step. *)
Lemma res_mapM_aborts {A B : Type} (f : A -> res B) (l : list A) (a : A) :
  a ∈ l -> is_ok (f a) = false -> is_ok (res_mapM f l) = false.
Proof.
  intros Ha Hf. induction l as [|b l IH]; [now apply elem_of_nil in Ha|].
  cbn. apply elem_of_cons in Ha as [<-|Ha].
  - now destruct (f a).
  - destruct (f b); [|reflexivity]. cbn. specialize (IH Ha).
    now destruct (res_mapM f l).
Qed.

Lemma clean_price_per_sqm_aborts (self : DataCleaning.t) (i : nat) :
  (i < Pd.nrows (apartments_df self))%nat ->
  is_ok (clean_row (currency_rate self) (Pd.row (apartments_df self) i)) = false ->
  is_ok (__clean_price_per_sqm self) = false.
Proof.
  intros Hi Hrow. unfold __clean_price_per_sqm, Pd.apply_rows.
  assert (E : is_ok (res_mapM (clean_row (currency_rate self))
                       (Pd.rows (apartments_df self))) = false).
  { apply (res_mapM_aborts _ _ (Pd.row (apartments_df self) i)); [|exact Hrow].
    unfold Pd.rows. apply list_elem_of_fmap. exists i. split; [reflexivity|].
    apply elem_of_seq. lia. }
  now destruct (res_mapM _ _).
Qed.

(** A price per square metre that is present and reads as no number
    raises: nothing catches the [ValueError] of [float]. *)
Lemma clean_row_negotiable (rate : Float.t) (row : Pd.Row) :
  row !! "price_per_sqm" = Some (VStr NEGOTIABLE) ->
  clean_row rate row = Raise ValueError.
Proof.
  intros Hpps. unfold clean_row, Pd.row_get. rewrite Hpps.
  cbn [mbind res_bind Pd.isna Py.str].
  vm_compute. reflexivity.
Qed.

(** C1, as the code has it.  For a row whose price per square metre
    is missing: a price that is [None] gives the missing marker; where
    the price converts with [int], an area that is [None] gives the
    missing marker, and so does an area whose integer part is zero;
    where both convert and the integer part of the area is not zero,
    the value is the integer part of the price divided by the integer
    part of the area, rounded down.  No exception is raised in these
    cases.  [int] converts every integer, to itself, and every finite
    float, to its integer part. *)
Theorem derived_price_per_sqm (rate : Float.t) (row : Pd.Row) (pps p a : value) :
  row !! "price_per_sqm" = Some pps -> Pd.isna pps = true ->
  row !! "price" = Some p -> row !! "area_m2" = Some a ->
  (p = VNone -> clean_row rate row = Ok VNone)
  /\ (forall x : Z, Py.int p = Ok x -> a = VNone -> clean_row rate row = Ok VNone)
  /\ (forall x y : Z, Py.int p = Ok x -> Py.int a = Ok y ->
        clean_row rate row = Ok (if y =? 0 then VNone else VInt (x / y)))
  /\ (forall (neg : bool) (m : positive) (e : Z),
        Py.int (VFloat (S754_finite neg m e)) = Ok (Float.trunc_finite neg m e))
  /\ (forall (neg : bool), Py.int (VFloat (S754_zero neg)) = Ok 0)
  /\ (forall n : Z, Py.int (VInt n) = Ok n).
Proof.
  intros Hpps Hna Hp Ha. split; [|split; [|split; [|split; [|split]]]].
  - intros ->. now rewrite (clean_row_derived rate row pps VNone a Hpps Hna Hp Ha).
  - intros x Hx ->.
    now rewrite (clean_row_derived rate row pps p VNone Hpps Hna Hp Ha), Hx.
  - intros x y. now apply clean_row_derived_quotient with (pps := pps).
  - reflexivity.
  - reflexivity.
  - reflexivity.
Qed.

(** C2.  A price that is blank or the word "negotiable" becomes the
    missing marker, but the same word as a price per square metre makes
    [clean_row] raise [ValueError], whatever the price and the area of
    the row, and the step aborts on a table with such a row.  The price
    text "inf" makes [parse_price] raise [OverflowError], at every rate
    that is finite and not zero.  And where the price per square metre
    is to be derived, an area or a price that is NaN makes [clean_row]
    raise [ValueError]. *)
Theorem unparseable_price_per_sqm_raises (rate : Float.t) :
  parse_price rate (VStr NEGOTIABLE) = Ok VNone
  /\ (forall s : pystr, Forall (fun c => Str.is_space c = true) s ->
        parse_price rate (VStr s) = Ok VNone)
  /\ (forall price area_m2 : value,
        clean_row rate (listing_row price area_m2 (VStr NEGOTIABLE))
        = Raise ValueError)
  /\ (forall (self : DataCleaning.t) (i : nat),
        (i < Pd.nrows (apartments_df self))%nat ->
        Pd.row (apartments_df self) i !! "price_per_sqm" = Some (VStr NEGOTIABLE) ->
        is_ok (__clean_price_per_sqm self) = false)
  /\ (Float.is_finite rate = true -> rate <> S754_zero false ->
      rate <> S754_zero true ->
      parse_price rate (VStr INF_TEXT) = Raise OverflowError)
  /\ clean_row rate (listing_row (VFloat (flt 100000 0)) NaN NaN)
    = Raise ValueError
  /\ clean_row rate (listing_row NaN (VFloat (flt 50 0)) NaN)
    = Raise ValueError.
Proof.
  split; [apply parse_price_negotiable|]. split; [apply parse_price_blank|].
  split; [|split; [|split; [|split; vm_compute; reflexivity]]].
  - intros price area. apply clean_row_negotiable. reflexivity.
  - intros self i Hi Hrow. apply (clean_price_per_sqm_aborts self i Hi).
    now rewrite (clean_row_negotiable _ _ Hrow).
  - unfold parse_price, normalize_price. cbn [Py.str].
    replace (Str.strip (Str.replace COMMA [] INF_TEXT)) with INF_TEXT
      by (vm_compute; reflexivity).
    rewrite str_lower_ascii by (unfold INF_TEXT, is_ascii; repeat constructor; lia).
    intros Hf Hp Hn. destruct rate as [[]|[]| |[] m e]; try discriminate;
      try contradiction; vm_compute; reflexivity.
Qed.

End PricePerSqm.

(* ================================================================= *)
(** ** The upload date *)

Section UploadDate.

Context `{Library}.

Import DataCleaning.

Lemma geo_months_range (k : pystr) (m : Z) :
  geo_months !! k = Some m -> 1 <= m <= 12.
Proof.
  unfold geo_months. intros Hk. apply elem_of_list_to_map_2 in Hk.
  unfold geo_month_names in Hk.
  repeat (apply elem_of_cons in Hk as [Hk|Hk]; [injection Hk as -> ->; lia|]).
  now apply elem_of_nil in Hk.
Qed.

Lemma days_in_month_bound (y m : Z) : 28 <= Py.days_in_month y m <= 31.
Proof.
  unfold Py.days_in_month.
  repeat match goal with |- context [if ?b then _ else _] => destruct b end; lia.
Qed.

(** The constructor accepts exactly the fields that are in range. *)
Lemma datetime_new_in_range (y m d h mi : Z) :
  try_except_all (dt ← Py.datetime_new y m d h mi; Ok (VDate dt)) (Ok VNone)
  = Ok (if Py.datetime_in_range y m d h mi
        then VDate (Datetime y m d h mi) else VNone).
Proof.
  unfold Py.datetime_new.
  destruct (Py.datetime_in_range y m d h mi) eqn:E.
  - replace (forallb Py.fits_c_int [y; m; d; h; mi]) with true; [reflexivity|].
    symmetry. unfold Py.datetime_in_range in E.
    pose proof (days_in_month_bound y m).
    repeat (apply andb_true_iff in E as [E ?]).
    cbn. unfold Py.fits_c_int.
    repeat (apply andb_true_iff; split); lia.
  - now destruct (negb _).
Qed.

(** [parse_date] on a text of three tokens. *)
Lemma parse_date_tokens (now_year : Z) (s day mon time : pystr) :
  Str.split s = [day; mon; time] ->
  parse_date now_year (VStr s)
  = Ok match geo_months !! Str.slice_to 3 mon,
             Parse.int_of_str day,
             Parse.int_of_str (Str.slice_to 2 time),
             Parse.int_of_str (Str.slice 3 5 time) with
       | Some m, Ok d, Ok h, Ok mi =>
         if Py.datetime_in_range now_year m d h mi
         then VDate (Datetime now_year m d h mi) else VNone
       | _, _, _, _ => VNone
       end.
Proof.
  intros Hs. unfold parse_date. rewrite Hs.
  destruct (geo_months !! Str.slice_to 3 mon) as [m|] eqn:Em; [|reflexivity].
  apply geo_months_range in Em.
  destruct (Z.eqb_spec m 0) as [->|_]; [lia|].
  destruct (Parse.int_of_str day) as [d|]; [|reflexivity].
  destruct (Parse.int_of_str (Str.slice_to 2 time)) as [h|]; [|reflexivity].
  destruct (Parse.int_of_str (Str.slice 3 5 time)) as [mi|]; [|reflexivity].
  cbn [mbind res_bind]. apply datetime_new_in_range.
Qed.

Lemma parse_date_other (now_year : Z) (s : pystr) :
  length (Str.split s) <> 3%nat -> parse_date now_year (VStr s) = Ok VNone.
Proof.
  intros Hn. unfold parse_date.
  destruct (Str.split s) as [|a [|b [|c [|e l]]]]; try reflexivity.
  now contradiction Hn.
Qed.

(** [parse_date] never raises. *)
Lemma parse_date_total (now_year : Z) (v : value) :
  is_ok (parse_date now_year v) = true.
Proof. unfold parse_date, try_except_all. now destruct (match v with VStr _ => _ | _ => _ end). Qed.

Lemma march_in_range (y d h mi : Z) :
  1 <= y <= 9999 -> 1 <= d <= 31 -> 0 <= h <= 23 -> 0 <= mi <= 59 ->
  Py.datetime_in_range y 3 d h mi = true.
Proof.
  intros Hy Hd Hh Hmi. unfold Py.datetime_in_range.
  change (Py.days_in_month y 3) with 31.
  repeat (apply andb_true_iff; split); lia.
Qed.

(** C5, as the code has it.  A text of three tokens whose month is in
    the table and whose day, hour and minute read as integers gives the
    timestamp of the current year, provided the fields are in range (a
    day of that month, an hour up to 23, a minute up to 59); out of
    range, and whenever the tokens are not three, the month is unknown
    or a number does not read, it gives the missing marker. *)
Theorem parse_date_spec (now_year : Z) (s : pystr) :
  (forall (day mon time : pystr) (m d h mi : Z),
     Str.split s = [day; mon; time] ->
     geo_months !! Str.slice_to 3 mon = Some m ->
     Parse.int_of_str day = Ok d ->
     Parse.int_of_str (Str.slice_to 2 time) = Ok h ->
     Parse.int_of_str (Str.slice 3 5 time) = Ok mi ->
     parse_date now_year (VStr s)
     = Ok (if Py.datetime_in_range now_year m d h mi
           then VDate (Datetime now_year m d h mi) else VNone))
  /\ (length (Str.split s) <> 3%nat -> parse_date now_year (VStr s) = Ok VNone)
  /\ (forall day mon time : pystr,
        Str.split s = [day; mon; time] ->
        geo_months !! Str.slice_to 3 mon = None ->
        parse_date now_year (VStr s) = Ok VNone)
  /\ (forall day mon time : pystr,
        Str.split s = [day; mon; time] ->
        is_ok (Parse.int_of_str day) = false
        \/ is_ok (Parse.int_of_str (Str.slice_to 2 time)) = false
        \/ is_ok (Parse.int_of_str (Str.slice 3 5 time)) = false ->
        parse_date now_year (VStr s) = Ok VNone)
  /\ (1 <= now_year <= 9999 ->
      parse_date now_year (VStr MARCH_15)
      = Ok (VDate (Datetime now_year 3 15 14 30)))
  /\ parse_date now_year (VStr MARCH_15_NO_TIME) = Ok VNone.
Proof.
  split; [|split; [|split; [|split; [|split]]]].
  - intros day mon time m d h mi Hs Hm Hd Hh Hmi.
    now rewrite (parse_date_tokens _ _ _ _ _ Hs), Hm, Hd, Hh, Hmi.
  - apply parse_date_other.
  - intros day mon time Hs Hm. now rewrite (parse_date_tokens _ _ _ _ _ Hs), Hm.
  - intros day mon time Hs Hf. rewrite (parse_date_tokens _ _ _ _ _ Hs).
    destruct (geo_months !! _); [|reflexivity].
    destruct (Parse.int_of_str day); [|reflexivity].
    destruct (Parse.int_of_str (Str.slice_to 2 time)); [|reflexivity].
    destruct (Parse.int_of_str (Str.slice 3 5 time)); [|reflexivity].
    cbn in Hf. now destruct Hf as [Hf|[Hf|Hf]].
  - intros Hy.
    rewrite (parse_date_tokens now_year MARCH_15 _ _ _ eq_refl).
    replace (geo_months !! _) with (Some 3) by (vm_compute; reflexivity).
    replace (Parse.int_of_str _) with (Ok (A:=Z) 15) by (vm_compute; reflexivity).
    replace (Parse.int_of_str _) with (Ok (A:=Z) 14) by (vm_compute; reflexivity).
    replace (Parse.int_of_str _) with (Ok (A:=Z) 30) by (vm_compute; reflexivity).
    rewrite march_in_range by lia. reflexivity.
  - apply parse_date_other. vm_compute. discriminate.
Qed.

(** Two ASCII digits read as their decimal value. *)
Lemma int_of_two_digits (a b : Z) :
  Digits.is_digit a = true -> Digits.is_digit b = true ->
  Parse.int_of_str [a; b] = Ok (10 * (a - 48) + (b - 48)).
Proof.
  unfold Digits.is_digit. intros [Ha1 Ha2]%andb_true_iff [Hb1 Hb2]%andb_true_iff.
  apply Z.leb_le in Ha1, Ha2, Hb1, Hb2.
  assert (Ea : a ∈ [48; 49; 50; 51; 52; 53; 54; 55; 56; 57])
    by (rewrite list_elem_of_In; cbn; lia).
  assert (Eb : b ∈ [48; 49; 50; 51; 52; 53; 54; 55; 56; 57])
    by (rewrite list_elem_of_In; cbn; lia).
  clear Ha1 Ha2 Hb1 Hb2.
  repeat (apply elem_of_cons in Ea as [->|Ea]);
    try (now apply elem_of_nil in Ea);
    repeat (apply elem_of_cons in Eb as [->|Eb]);
    try (now apply elem_of_nil in Eb);
    vm_compute; reflexivity.
Qed.

(** C10.  The character between the hour and the minute is never
    looked at: two texts whose tokens differ in that character only give
    the same result, a time token with digits at positions 0-1 and 3-4
    whose fields are in range is accepted whatever stands at position 2,
    and "15 მარ 14x30" reads as 14:30 on the 15th of March. *)
Theorem time_separator_not_checked (now_year : Z) (s s' day mon rest : pystr)
    (h1 h2 c c' : Z) :
  (Str.split s = [day; mon; h1 :: h2 :: c :: rest] ->
   Str.split s' = [day; mon; h1 :: h2 :: c' :: rest] ->
   parse_date now_year (VStr s) = parse_date now_year (VStr s'))
  /\ (forall (m1 m2 : Z) (tail : pystr) (m d : Z),
        Str.split s = [day; mon; h1 :: h2 :: c :: m1 :: m2 :: tail] ->
        geo_months !! Str.slice_to 3 mon = Some m ->
        Parse.int_of_str day = Ok d ->
        Forall (fun a => Digits.is_digit a = true) [h1; h2; m1; m2] ->
        let h := 10 * (h1 - 48) + (h2 - 48) in
        let mi := 10 * (m1 - 48) + (m2 - 48) in
        Py.datetime_in_range now_year m d h mi = true ->
        parse_date now_year (VStr s) = Ok (VDate (Datetime now_year m d h mi)))
  /\ (1 <= now_year <= 9999 ->
      parse_date now_year (VStr MARCH_15_X)
      = Ok (VDate (Datetime now_year 3 15 14 30))).
Proof.
  split; [|split].
  - intros Hs Hs'.
    rewrite (parse_date_tokens _ _ _ _ _ Hs), (parse_date_tokens _ _ _ _ _ Hs').
    reflexivity.
  - intros m1 m2 tail m d Hs Hm Hd Hdig h mi Hr.
    rewrite (parse_date_tokens _ _ _ _ _ Hs), Hm, Hd.
    rewrite !Forall_cons in Hdig. destruct Hdig as (D1 & D2 & D3 & D4 & _).
    change (Str.slice_to 2 (h1 :: h2 :: c :: m1 :: m2 :: tail)) with [h1; h2].
    change (Str.slice 3 5 (h1 :: h2 :: c :: m1 :: m2 :: tail)) with [m1; m2].
    rewrite (int_of_two_digits h1 h2 D1 D2), (int_of_two_digits m1 m2 D3 D4).
    fold h mi. now rewrite Hr.
  - intros Hy.
    rewrite (parse_date_tokens now_year MARCH_15_X _ _ _ eq_refl).
    replace (geo_months !! _) with (Some 3) by (vm_compute; reflexivity).
    replace (Parse.int_of_str _) with (Ok (A:=Z) 15) by (vm_compute; reflexivity).
    replace (Parse.int_of_str _) with (Ok (A:=Z) 14) by (vm_compute; reflexivity).
    replace (Parse.int_of_str _) with (Ok (A:=Z) 30) by (vm_compute; reflexivity).
    rewrite march_in_range by lia. reflexivity.
Qed.

End UploadDate.

(* ================================================================= *)
(** ** Which steps can raise *)

Section Totality.

Context `{Library}.

Import DataCleaning.

Lemma res_mapM_raise_inv {A B : Type} (f : A -> res B) (l : list A) (e : exn) :
  res_mapM f l = Raise e -> exists a, a ∈ l /\ f a = Raise e.
Proof.
  induction l as [|a l IH]; cbn; [discriminate|].
  destruct (f a) as [b|e'] eqn:Ea; cbn.
  - destruct (res_mapM f l) as [bs|e'] eqn:El; cbn; [discriminate|].
    intros [= ->]. destruct (IH eq_refl) as (a' & Ha' & Hf).
    exists a'. split; [apply elem_of_cons; now right | exact Hf].
  - intros [= ->]. exists a. split; [apply elem_of_cons; now left | exact Ea].
Qed.

(** On a table that has their column, the area step, the date step, the
    transaction-type step and the district step return. *)
Lemma clean_area_m2_returns (self : DataCleaning.t) (col : Pd.Series) :
  Pd.columns (apartments_df self) !! "area_m2" = Some col ->
  is_ok (__clean_area_m2 self) = true.
Proof. intros Hc. now rewrite (clean_area_m2_eq self col Hc). Qed.

Lemma transform_upload_date_returns (now_year : Z) (self : DataCleaning.t)
    (col : Pd.Series) :
  Pd.columns (apartments_df self) !! "upload_date" = Some col ->
  is_ok (__transform_upload_date now_year self) = true.
Proof.
  intros Hc.
  assert (Eg : Pd.getitem (apartments_df self) "upload_date" = Ok col)
    by (unfold Pd.getitem; now rewrite Hc).
  unfold __transform_upload_date. rewrite Eg. cbn. rewrite getitem_setitem. cbn.
  unfold Pd.apply.
  destruct (res_mapM_ok (parse_date now_year) (Pd.astype_str col)) as [l El].
  - apply Forall_forall. intros v _. apply parse_date_total.
  - now rewrite El.
Qed.

Lemma new_transaction_type_col_returns (self : DataCleaning.t) (col : Pd.Series) :
  Pd.columns (apartments_df self) !! "description" = Some col ->
  is_ok (__new_transaction_type_col self) = true.
Proof.
  intros Hc.
  assert (Eg : Pd.getitem (apartments_df self) "description" = Ok col)
    by (unfold Pd.getitem; now rewrite Hc).
  unfold __new_transaction_type_col. rewrite Eg. cbn. now rewrite apply_total.
Qed.

(** The price step raises only on a missing column or on an infinity. *)
Lemma clean_and_transform_price_raises (self : DataCleaning.t) (e : exn) :
  __clean_and_transform_price self = Raise e -> e = KeyError \/ e = OverflowError.
Proof.
  unfold __clean_and_transform_price, Pd.getitem.
  destruct (Pd.columns (apartments_df self) !! "price") as [col|]; cbn;
    [|intros [= <-]; now left].
  unfold Pd.apply.
  destruct (res_mapM _ col) as [l|e'] eqn:E; cbn; [discriminate|].
  intros [= ->]. right.
  apply res_mapM_raise_inv in E as (v & _ & Hv).
  now apply parse_price_raises in Hv.
Qed.

End Totality.

(* ================================================================= *)
(** ** Running a step again on its own output *)

Section Rerun.

Context `{Library}.

Import DataCleaning.

Ltac int_char_cases Hc :=
  unfold int_chars in Hc;
  repeat (apply elem_of_cons in Hc as [->|Hc]);
  [..| now apply elem_of_nil in Hc].

Lemma is_digit_int_char (c : Z) : Digits.is_digit c = true -> c ∈ int_chars.
Proof.
  unfold Digits.is_digit. intros [H1 H2]%andb_true_iff.
  apply Z.leb_le in H1, H2. rewrite list_elem_of_In. cbn. lia.
Qed.

Lemma plain_replace (s : pystr) (old : Z) :
  plain s -> old ∉ int_chars -> Str.replace old [] s = s.
Proof.
  intros Hs Ho. apply replace_absent. eapply Forall_impl; [exact Hs|].
  intros c Hc ->. contradiction.
Qed.

Lemma plain_no_space (s : pystr) :
  plain s -> Forall (fun c => Str.is_space c = false) s.
Proof.
  intros Hs. eapply Forall_impl; [exact Hs|]. intros c Hc.
  int_char_cases Hc; reflexivity.
Qed.

Lemma lstrip_no_space (r : pystr) :
  Forall (fun c => Str.is_space c = false) r -> Str.lstrip r = r.
Proof. destruct 1 as [|c r Hc _]; cbn; [reflexivity | now rewrite Hc]. Qed.

Lemma plain_strip (s : pystr) : plain s -> Str.strip s = s.
Proof.
  intros Hs%plain_no_space. unfold Str.strip, Str.rstrip.
  rewrite (lstrip_no_space s Hs).
  rewrite lstrip_no_space; [apply rev_involutive|].
  now apply List.Forall_rev.
Qed.

Lemma plain_lower (s : pystr) : plain s -> str_lower s = s.
Proof.
  intros Hs. rewrite str_lower_ascii.
  - induction Hs as [|c r Hc _ IH]; cbn; [reflexivity|].
    rewrite IH. f_equal. int_char_cases Hc; reflexivity.
  - eapply Forall_impl; [exact Hs|]. intros c Hc. unfold is_ascii.
    int_char_cases Hc; lia.
Qed.

Lemma plain_no_marker (s : pystr) (c : Z) :
  plain s -> c ∉ int_chars -> Str.contains [c] s = false.
Proof.
  intros Hs Hc. induction Hs as [|a r Ha _ IH]; [reflexivity|].
  cbn [Str.contains Str.is_prefix]. rewrite IH.
  destruct (Z.eqb_spec c a) as [->|]; [contradiction | reflexivity].
Qed.

Lemma plain_to_ascii (s : pystr) : plain s -> Parse.to_ascii s = s.
Proof.
  intros Hs. unfold Parse.to_ascii.
  induction Hs as [|c r Hc _ IH]; cbn; [reflexivity|].
  rewrite IH. f_equal. int_char_cases Hc; reflexivity.
Qed.

Lemma lskip_no_space (r : list Z) :
  Forall (fun c => Parse.is_ascii_space c = false) r -> Parse.lskip r = r.
Proof. destruct 1 as [|c r Hc _]; cbn; [reflexivity | now rewrite Hc]. Qed.

Lemma plain_trim (s : pystr) : plain s -> Parse.trim s = s.
Proof.
  intros Hp.
  assert (Hs : Forall (fun c => Parse.is_ascii_space c = false) s).
  { eapply Forall_impl; [exact Hp|]. intros c Hc. int_char_cases Hc; reflexivity. }
  unfold Parse.trim. rewrite (lskip_no_space s Hs).
  rewrite lskip_no_space; [apply rev_involutive|].
  now apply List.Forall_rev.
Qed.

Lemma plain_underscores (s : pystr) (prev : Z) :
  plain s -> prev <> 95 -> Digits.strip_underscores_from prev s = Some s.
Proof.
  intros Hs. revert prev. induction Hs as [|c r Hc _ IH]; intros prev Hp; cbn.
  - now destruct (Z.eqb_spec prev 95).
  - assert (Hc95 : c <> 95) by (int_char_cases Hc; discriminate).
    destruct (Z.eqb_spec c 95); [contradiction|].
    destruct (Z.eqb_spec prev 95); [contradiction|]. cbn.
    now rewrite (IH c Hc95).
Qed.

(** *** The text of an integer *)

Lemma value_app (ds : list Z) (d : Z) :
  Digits.value (ds ++ [d]) = Digits.value ds * 10 + (d - 48).
Proof. unfold Digits.value. now rewrite fold_left_app. Qed.

Lemma of_pos_fuel_spec (fuel : nat) (n : Z) (acc : list Z) :
  0 <= n < 2 ^ Z.of_nat (S fuel) ->
  exists ds, Digits.of_pos_fuel (S fuel) n acc = ds ++ acc
             /\ Forall (fun c => Digits.is_digit c = true) ds
             /\ ds <> [] /\ Digits.value ds = n.
Proof.
  revert n acc. induction fuel as [|fuel IH]; intros n acc Hn;
    cbn [Digits.of_pos_fuel]; destruct (Z.ltb_spec n 10) as [Hlt|Hge].
  - exists [48 + n mod 10]. rewrite Z.mod_small by lia.
    repeat split; [|discriminate|cbn; lia].
    constructor; [|constructor]. unfold Digits.is_digit. lia.
  - exfalso. change (2 ^ Z.of_nat 1) with 2 in Hn. lia.
  - exists [48 + n mod 10]. rewrite Z.mod_small by lia.
    repeat split; [|discriminate|cbn; lia].
    constructor; [|constructor]. unfold Digits.is_digit. lia.
  - destruct (IH (n / 10) ((48 + n mod 10) :: acc)) as (ds & E & Hd & Hne & Hv).
    { split; [apply Z.div_pos; lia|].
      apply Z.div_lt_upper_bound; [lia|].
      rewrite (Nat2Z.inj_succ (S fuel)), Z.pow_succ_r in Hn by lia. lia. }
    exists (ds ++ [48 + n mod 10]). rewrite <- app_assoc. split; [exact E|].
    split; [|split].
    + apply Forall_app. split; [exact Hd|]. constructor; [|constructor].
      unfold Digits.is_digit. pose proof (Z.mod_pos_bound n 10). lia.
    + now destruct ds.
    + rewrite value_app, Hv. pose proof (Z.div_mod n 10). lia.
Qed.

Lemma of_nonneg_spec (n : Z) :
  0 <= n ->
  Forall (fun c => Digits.is_digit c = true) (Digits.of_nonneg n)
  /\ Digits.of_nonneg n <> [] /\ Digits.value (Digits.of_nonneg n) = n.
Proof.
  intros Hn. unfold Digits.of_nonneg.
  destruct (of_pos_fuel_spec (Z.to_nat (Z.log2 n)) n []) as (ds & E & Hd & Hne & Hv).
  - split; [exact Hn|]. rewrite Nat2Z.inj_succ, Z2Nat.id by apply Z.log2_nonneg.
    destruct (Z.eq_dec n 0) as [->|]; [reflexivity|].
    apply Z.log2_spec. lia.
  - rewrite E, app_nil_r. auto.
Qed.

Lemma span_digits (ds : list Z) :
  Forall (fun c => Digits.is_digit c = true) ds -> Digits.span ds = (ds, []).
Proof. induction 1 as [|c r Hc _ IH]; cbn; [reflexivity | now rewrite Hc, IH]. Qed.

(** [float] reads the text of an integer back as the float of that
    integer. *)
Lemma float_of_int_text (n : Z) :
  plain (Digits.of_Z n)
  /\ Parse.float_of_str (Digits.of_Z n) = Ok (Float.of_Z n).
Proof.
  assert (Hds := of_nonneg_spec (Z.abs n) (Z.abs_nonneg n)).
  destruct Hds as (Hd & Hne & Hv).
  assert (Hplain : plain (Digits.of_Z n)).
  { unfold Digits.of_Z, plain.
    assert (Forall (fun c => c ∈ int_chars) (Digits.of_nonneg (Z.abs n)))
      by (eapply Forall_impl; [exact Hd | exact is_digit_int_char]).
    destruct (Z.ltb_spec n 0).
    - rewrite <- Z.abs_neq by lia. constructor; [|assumption].
      unfold int_chars. set_solver.
    - now rewrite <- (Z.abs_eq n) at 1 by lia. }
  split; [exact Hplain|].
  unfold Parse.float_of_str.
  rewrite (plain_to_ascii _ Hplain), (plain_trim _ Hplain).
  unfold Digits.strip_underscores.
  rewrite (plain_underscores _ 0 Hplain) by discriminate. cbn [mbind option_bind].
  unfold Float.of_Z, Digits.of_Z.
  assert (Hdec : forall neg, Parse.decimal neg (Digits.of_nonneg (Z.abs n))
                             = Some (Float.of_decimal neg (Z.abs n) 0)).
  { intros neg. unfold Parse.decimal. rewrite (span_digits _ Hd).
    rewrite app_nil_r. destruct (Digits.of_nonneg (Z.abs n)) eqn:E; [contradiction|].
    cbn [Parse.exponent mbind option_bind length]. now rewrite Hv. }
  assert (Hnot : forall w, Str.eqb (map ascii_lower (Digits.of_nonneg (Z.abs n))) w = true ->
                           match w with c :: _ => Digits.is_digit c = true | [] => False end).
  { intros w Hw. unfold Str.eqb in Hw. apply bool_decide_eq_true in Hw. subst w.
    destruct (Digits.of_nonneg (Z.abs n)) as [|c r]; [contradiction|].
    cbn. apply Forall_cons in Hd as [Hc _].
    pose proof (is_digit_int_char _ Hc) as Hc'.
    int_char_cases Hc'; try reflexivity. discriminate Hc. }
  assert (Hfa : forall neg,
            Parse.float_unsigned neg (Digits.of_nonneg (Z.abs n))
            = Some (Float.of_decimal neg (Z.abs n) 0)).
  { intros neg. unfold Parse.float_unsigned. cbv zeta.
    destruct (Str.eqb _ (u "inf")) eqn:E1; [apply Hnot in E1; discriminate E1|].
    destruct (Str.eqb _ (u "infinity")) eqn:E2; [apply Hnot in E2; discriminate E2|].
    destruct (Str.eqb _ (u "nan")) eqn:E3; [apply Hnot in E3; discriminate E3|].
    apply Hdec. }
  destruct (Z.ltb_spec n 0) as [Hneg|Hpos].
  - rewrite <- Z.abs_neq by lia. unfold Parse.float_ascii. cbn [Parse.sign].
    now rewrite (Hfa true).
  - rewrite <- (Z.abs_eq n) at 1 by lia. unfold Parse.float_ascii.
    assert (Hs : Parse.sign (Digits.of_nonneg (Z.abs n))
                 = (false, Digits.of_nonneg (Z.abs n))).
    { destruct (Digits.of_nonneg (Z.abs n)) as [|c r] eqn:E; [contradiction|].
      apply Forall_cons in Hd as [Hc _].
      pose proof (is_digit_int_char _ Hc) as Hc'.
      int_char_cases Hc'; try reflexivity. discriminate Hc. }
    rewrite Hs. now rewrite (Hfa false).
Qed.

Lemma comma_not_int_char : COMMA ∉ int_chars.
Proof. unfold int_chars, COMMA. set_solver. Qed.

Lemma dollar_not_int_char : DOLLAR ∉ int_chars.
Proof. unfold int_chars, DOLLAR. set_solver. Qed.

Lemma slash_not_int_char : SLASH ∉ int_chars.
Proof. unfold int_chars, SLASH. set_solver. Qed.

(** An integer has no dollar sign: [parse_price] takes it for an amount
    in the secondary currency and converts it. *)
Lemma parse_price_int (rate : Float.t) (n : Z) :
  parse_price rate (VInt n)
  = try_except
      (k ← Float.round (Float.mul (Float.of_Z n) rate); Ok (VInt k))
      [ValueError]
      (Ok VNone).
Proof.
  destruct (float_of_int_text n) as [Hp Hf].
  unfold parse_price, normalize_price. cbn [Py.str].
  rewrite (plain_replace _ _ Hp comma_not_int_char), (plain_strip _ Hp).
  rewrite (plain_lower _ Hp), (plain_no_marker _ _ Hp dollar_not_int_char).
  now rewrite Hf.
Qed.

(** So does [clean_row] with an integer price per square metre. *)
Lemma clean_row_int (rate : Float.t) (row : Pd.Row) (n : Z) :
  row !! "price_per_sqm" = Some (VInt n) ->
  clean_row rate row
  = (k ← Float.round (Float.mul (Float.of_Z n) rate); Ok (VInt k)).
Proof.
  intros Hr. destruct (float_of_int_text n) as [Hp Hf].
  unfold clean_row, Pd.row_get. rewrite Hr. cbn [mbind res_bind Pd.isna Py.str].
  rewrite (plain_strip _ Hp), (plain_no_marker _ _ Hp slash_not_int_char).
  rewrite (plain_no_marker _ _ Hp dollar_not_int_char).
  rewrite (plain_replace _ _ Hp comma_not_int_char), (plain_strip _ Hp).
  now rewrite Hf.
Qed.

(** C3, as the code has it.  Running the area step again on a column
    that is already numeric changes nothing.  The price step and the
    price-per-area step convert again: an integer [n] has no currency
    marker and becomes [round(n * rate)]. *)
Theorem rerun_on_numeric (self : DataCleaning.t) :
  (forall col : Pd.Series,
     Pd.columns (apartments_df self) !! "area_m2" = Some col ->
     forallb is_float col = true \/ forallb is_int col = true ->
     __clean_area_m2 self = Ok self)
  /\ (forall n k : Z,
        Float.round (Float.mul (Float.of_Z n) (currency_rate self)) = Ok k ->
        parse_price (currency_rate self) (VInt n) = Ok (VInt k))
  /\ (forall (row : Pd.Row) (n k : Z),
        row !! "price_per_sqm" = Some (VInt n) ->
        Float.round (Float.mul (Float.of_Z n) (currency_rate self)) = Ok k ->
        clean_row (currency_rate self) row = Ok (VInt k)).
Proof.
  split; [|split].
  - intros col Hc Hn. now apply (clean_area_m2_numeric self col).
  - intros n k Hk. now rewrite parse_price_int, Hk.
  - intros row n k Hr Hk. now rewrite (clean_row_int _ _ _ Hr), Hk.
Qed.

End Rerun.

(* ================================================================= *)
(** * The pipeline on concrete tables

    Computed with the reference tables, at the rate 0.37 and in the
    year 2026. *)

Module Examples.

#[local] Existing Instance Reference.library.

Import DataCleaning Tables.

(** The run on the priced listings returns, and cleans every column. *)
Lemma main_priced_listings :
  column_after (main 2026) priced_listings "price"
    = Ok [VFloat (flt 100000 0); VFloat (flt 55500 0); VFloat (flt 74000 0)]
  /\ column_after (main 2026) priced_listings "area_m2"
    = Ok [VFloat (flt 50 0); VFloat (flt 80 0); VFloat (flt 655 (-1))]
  /\ column_after (main 2026) priced_listings "price_per_sqm"
    = Ok [VFloat (flt 2000 0); VFloat (flt 693 0); VFloat (flt 1130 0)]
  /\ column_after (main 2026) priced_listings "upload_date"
    = Ok [VDate (Datetime 2026 3 15 14 30); VDate (Datetime 2026 1 1 9 5);
          VDate (Datetime 2026 2 28 23 59)]
  /\ column_after (main 2026) priced_listings "transaction_type"
    = Ok [VStr FOR_SALE; VStr DAILY_RENT; VStr MONTHLY_RENT]
  /\ column_after (main 2026) priced_listings "district_name"
    = Ok [VStr VAKE; VStr SABURTALO; VStr NOT_PROVIDED].
Proof. repeat split; vm_compute; reflexivity. Qed.

(** The run on the listings with the negotiable price does not return:
    the price step stores the missing price as NaN, and the derivation
    of the price per square metre raises on it. *)
Lemma main_negotiable_price :
  column_after __clean_and_transform_price listings "price"
    = Ok [VFloat (flt 100000 0); NaN; VFloat (flt 74000 0)]
  /\ main 2026 listings = Raise ValueError.
Proof. split; vm_compute; reflexivity. Qed.

Lemma main_unknown_area :
  column_after __clean_area_m2 listings_unknown_area "area_m2"
    = Ok [VFloat (flt 50 0); NaN]
  /\ main 2026 listings_unknown_area = Raise ValueError.
Proof. split; vm_compute; reflexivity. Qed.

Lemma main_negotiable_rate :
  main 2026 listings_negotiable_rate = Raise ValueError.
Proof. vm_compute. reflexivity. Qed.

(** *** Running the steps again on the cleaned table *)

(** The area step leaves the cleaned table as it is, and an integer
    price of 1000 is converted to 370. *)
Lemma rerun_on_numeric_witness :
  __clean_area_m2 cleaned = Ok cleaned
  /\ parse_price (currency_rate cleaned) (VInt 1000) = Ok (VInt 370).
Proof.
  split.
  - apply (proj1 (rerun_on_numeric cleaned)
             [VFloat (flt 50 0); VFloat (flt 805 (-1))]); [reflexivity|].
    left. reflexivity.
  - apply (proj1 (proj2 (rerun_on_numeric cleaned))). vm_compute. reflexivity.
Defined.

(** The price step and the price-per-area step do change the cleaned
    table: every value is multiplied by the rate once more. *)
Lemma rerun_price_changes :
  Pd.getitem (apartments_df cleaned) "price"
    = Ok [VFloat (flt 100000 0); VFloat (flt 55500 0)]
  /\ column_after __clean_and_transform_price cleaned "price"
    = Ok [VInt 37000; VInt 20535]
  /\ Pd.getitem (apartments_df cleaned) "price_per_sqm"
    = Ok [VFloat (flt 2000 0); VFloat (flt 689 0)]
  /\ column_after __clean_price_per_sqm cleaned "price_per_sqm"
    = Ok [VInt 740; VInt 255].
Proof. repeat split; vm_compute; reflexivity. Qed.

(** *** The derived price per square metre *)

Lemma derived_price_per_sqm_witness :
  clean_row rate (listing_row (VFloat (flt 100000 0)) (VFloat (flt 50 0)) NaN)
    = Ok (VInt 2000)
  /\ clean_row rate (listing_row (VFloat (flt 100000 0)) (VFloat (flt 0 0)) NaN)
    = Ok VNone
  /\ clean_row rate (listing_row VNone (VFloat (flt 50 0)) NaN) = Ok VNone.
Proof.
  split; [|split].
  - apply (proj1 (proj2 (proj2
      (derived_price_per_sqm rate
         (listing_row (VFloat (flt 100000 0)) (VFloat (flt 50 0)) NaN)
         NaN (VFloat (flt 100000 0)) (VFloat (flt 50 0))
         eq_refl eq_refl eq_refl eq_refl))) 100000 50); reflexivity.
  - apply (proj1 (proj2 (proj2
      (derived_price_per_sqm rate
         (listing_row (VFloat (flt 100000 0)) (VFloat (flt 0 0)) NaN)
         NaN (VFloat (flt 100000 0)) (VFloat (flt 0 0))
         eq_refl eq_refl eq_refl eq_refl))) 100000 0); reflexivity.
  - apply (proj1
      (derived_price_per_sqm rate
         (listing_row VNone (VFloat (flt 50 0)) NaN)
         NaN VNone (VFloat (flt 50 0))
         eq_refl eq_refl eq_refl eq_refl)); reflexivity.
Defined.

(** The quotient is taken of the integer parts: 100000 by 65.5 gives
    100000 // 65 = 1538, where the quotient of the two numbers, rounded
    down, is 1526; and the area 0.5, which is not zero, gives the missing
    marker.  A missing value that is stored as NaN is not caught: with
    the area NaN, as the area step leaves it for a text that is no
    numeral, or with the price NaN, [clean_row] raises [ValueError]. *)
Lemma derived_price_per_sqm_fractional_area :
  clean_row rate (listing_row (VFloat (flt 100000 0)) (VFloat (flt 655 (-1))) NaN)
    = Ok (VInt 1538)
  /\ Float.to_int (SFdiv Float.prec Float.emax (flt 100000 0) (flt 655 (-1)))
    = Ok 1526
  /\ 100000 * 10 / 655 = 1526
  /\ clean_row rate (listing_row (VFloat (flt 100000 0)) (VFloat (flt 5 (-1))) NaN)
    = Ok VNone
  /\ clean_row rate (listing_row (VFloat (flt 100000 0)) NaN NaN)
    = Raise ValueError
  /\ clean_row rate (listing_row NaN (VFloat (flt 0 0)) NaN)
    = Raise ValueError
  /\ clean_row rate (listing_row NaN VNone NaN) = Raise ValueError.
Proof. repeat split; vm_compute; reflexivity. Qed.

(** *** Prices *)

Lemma parse_price_by_marker_witness :
  parse_price rate (VStr (u "150,000 $")) = Ok (VFloat (flt 150000 0))
  /\ parse_price rate (VStr (u "1000")) = Ok (VInt 370).
Proof.
  split.
  - apply (proj1 (parse_price_by_marker rate (VStr (u "150,000 $"))));
      vm_compute; reflexivity.
  - refine (proj2 (parse_price_by_marker rate (VStr (u "1000")))
              _ (flt 1000 0) 370 _ _); vm_compute; reflexivity.
Defined.

(** *** Dates *)

Lemma parse_date_spec_witness :
  parse_date 2026 (VStr MARCH_15) = Ok (VDate (Datetime 2026 3 15 14 30)).
Proof.
  apply (proj1 (parse_date_spec 2026 MARCH_15) DAY_15 MAR TIME_14_30 3 15 14 30);
    vm_compute; reflexivity.
Defined.

(** Three tokens, a month of the table and three numbers that read, and
    yet no timestamp: March has no 32nd day. *)
Lemma parse_date_day_32 :
  Str.split MARCH_32 = [DAY_32; MAR; TIME_14_30]
  /\ geo_months !! Str.slice_to 3 MAR = Some 3
  /\ Parse.int_of_str DAY_32 = Ok 32
  /\ Parse.int_of_str (Str.slice_to 2 TIME_14_30) = Ok 14
  /\ Parse.int_of_str (Str.slice 3 5 TIME_14_30) = Ok 30
  /\ parse_date 2026 (VStr MARCH_32) = Ok VNone.
Proof. repeat split; vm_compute; reflexivity. Qed.

Lemma time_separator_not_checked_witness :
  parse_date 2026 (VStr MARCH_15_X) = parse_date 2026 (VStr MARCH_15)
  /\ parse_date 2026 (VStr MARCH_15_X) = Ok (VDate (Datetime 2026 3 15 14 30))
  /\ parse_date 2026 (VStr MARCH_15_X)
     = Ok (VDate (Datetime 2026 3 15 (10 * (49 - 48) + (52 - 48))
                                     (10 * (51 - 48) + (48 - 48)))).
Proof.
  split; [|split].
  - apply (proj1 (time_separator_not_checked 2026 MARCH_15_X MARCH_15
                    DAY_15 MAR [51; 48] 49 52 120 58)); reflexivity.
  - apply (proj2 (proj2 (time_separator_not_checked 2026 MARCH_15_X MARCH_15
                           DAY_15 MAR [51; 48] 49 52 120 58))). lia.
  - apply (proj1 (proj2 (time_separator_not_checked 2026 MARCH_15_X MARCH_15
                           DAY_15 MAR [51; 48] 49 52 120 58)) 51 48 [] 3 15);
      try reflexivity.
    repeat constructor.
Defined.

(** Three tokens, the day 15, a month of the table and a time token with
    digits at the positions 0-1 and 3-4, and yet no timestamp: there is
    no hour 99 and no minute 61, whatever stands between them. *)
Lemma time_separator_out_of_range :
  Str.split MARCH_15_99 = [DAY_15; MAR; [57; 57; 120; 57; 57]]
  /\ Str.split MARCH_15_25_61 = [DAY_15; MAR; [50; 53; 58; 54; 49]]
  /\ geo_months !! Str.slice_to 3 MAR = Some 3
  /\ Parse.int_of_str DAY_15 = Ok 15
  /\ forallb Digits.is_digit [57; 57; 57; 57; 50; 53; 54; 49] = true
  /\ Parse.int_of_str (Str.slice_to 2 [57; 57; 120; 57; 57]) = Ok 99
  /\ Parse.int_of_str (Str.slice 3 5 [57; 57; 120; 57; 57]) = Ok 99
  /\ parse_date 2026 (VStr MARCH_15_99) = Ok VNone
  /\ parse_date 2026 (VStr MARCH_15_25_61) = Ok VNone.
Proof. repeat split; vm_compute; reflexivity. Qed.

(** *** Transaction types *)

Lemma transaction_type_first_match_witness :
  extract_transaction_type (VStr (u "ბინა ქირავდება დღიურად ვაკეში"))
  = VStr DAILY_RENT.
Proof.
  apply (proj2 (proj2 (proj1 (proj2 (proj2
           (transaction_type_first_match (VStr (u "ბინა ქირავდება დღიურად ვაკეში")))))
           _ eq_refl eq_refl))); reflexivity.
Defined.

(** *** District names *)

Lemma fill_district_name_nulls_witness :
  exists (self' : DataCleaning.t) (col' : Pd.Series),
    __fill_district_name_nulls listings = Ok self'
    /\ Pd.columns (apartments_df self') !! "district_name" = Some col'
    /\ length col' = 3%nat
    /\ Forall (fun v => Pd.isna v = false) col'
    /\ (forall (i : nat) (v : value),
          [VStr VAKE; VStr SABURTALO; NaN] !! i = Some v ->
          Pd.isna v = true -> col' !! i = Some (VStr NOT_PROVIDED))
    /\ (forall (i : nat) (v : value),
          [VStr VAKE; VStr SABURTALO; NaN] !! i = Some v ->
          Pd.isna v = false -> col' !! i = Some v).
Proof.
  apply (fill_district_name_nulls_spec listings [VStr VAKE; VStr SABURTALO; NaN]).
  reflexivity.
Defined.

(** *** Areas *)

Lemma clean_area_m2_cells_witness :
  area_value (VStr (u "65.5მ²")) = VFloat (flt 655 (-1))
  /\ area_value (VStr (u "80")) = VInt 80
  /\ area_value (VStr (u "unknown")) = NaN.
Proof.
  split; [|split].
  - apply (proj1 (clean_area_m2_cells listings) (u "65.5") (NFloat (flt 655 (-1)))).
    vm_compute. reflexivity.
  - apply (proj1 (proj2 (clean_area_m2_cells listings)) (u "80") (NInt 80)).
    vm_compute. reflexivity.
  - apply (proj1 (proj2 (proj2 (proj2 (clean_area_m2_cells listings))))).
    + reflexivity.
    + intros s [= <-]. split; [vm_compute; reflexivity|].
      intros n Hn. apply (f_equal (@rev Z)) in Hn.
      rewrite rev_app_distr in Hn. vm_compute in Hn. discriminate Hn.
Defined.

(** *** Rows *)

Lemma no_row_added_or_removed_witness :
  exists self' : DataCleaning.t,
    main 2026 priced_listings = Ok self'
    /\ Pd.nrows (apartments_df self') = 3%nat
    /\ size (dom (Pd.columns (apartments_df self'))) = 7%nat.
Proof.
  destruct (main 2026 priced_listings) as [self'|e] eqn:E.
  - exists self'. split; [reflexivity|].
    destruct (proj2 (no_row_added_or_removed 2026 priced_listings) self' E)
      as (Hn & _ & _ & _ & Hs).
    split; [exact Hn|]. rewrite Hs; [reflexivity | vm_compute; reflexivity |].
    vm_compute. intros Hd. discriminate Hd.
  - exfalso. vm_compute in E. discriminate E.
Defined.

End Examples.

(* ================================================================= *)
(** * Further properties of the cleaning steps *)

(** ** More on text *)

Section MoreText.

Implicit Types s a b l r : pystr.

Lemma lstrip_skip l s :
  Forall (fun c => Str.is_space c = true) l -> Str.lstrip (l ++ s) = Str.lstrip s.
Proof. induction 1 as [|c l Hc _ IH]; cbn; [reflexivity | now rewrite Hc]. Qed.

Lemma lstrip_app_nonspace a (c : Z) b :
  Str.is_space c = false -> Str.lstrip (a ++ c :: b) = Str.lstrip a ++ c :: b.
Proof.
  intros Hc. induction a as [|x a IH]; cbn.
  - now rewrite Hc.
  - destruct (Str.is_space x); [exact IH | reflexivity].
Qed.

Lemma rstrip_skip s r :
  Forall (fun c => Str.is_space c = true) r -> Str.rstrip (s ++ r) = Str.rstrip s.
Proof.
  intros Hr. unfold Str.rstrip. rewrite rev_app_distr, lstrip_skip; [reflexivity|].
  now apply List.Forall_rev.
Qed.

Lemma rstrip_app_nonspace a (c : Z) b :
  Str.is_space c = false -> Str.rstrip (a ++ c :: b) = a ++ c :: Str.rstrip b.
Proof.
  intros Hc. unfold Str.rstrip. rewrite rev_app_distr. cbn [rev].
  rewrite <- app_assoc. cbn [app]. rewrite (lstrip_app_nonspace _ _ _ Hc).
  rewrite rev_app_distr. cbn [rev]. rewrite rev_involutive, <- app_assoc.
  reflexivity.
Qed.

(** Around a character that is no white space, [strip] works on the two
    sides separately. *)
Lemma strip_app_nonspace a (c : Z) b :
  Str.is_space c = false ->
  Str.strip (a ++ c :: b) = Str.lstrip a ++ c :: Str.rstrip b.
Proof.
  intros Hc. unfold Str.strip.
  now rewrite (lstrip_app_nonspace _ _ _ Hc), (rstrip_app_nonspace _ _ _ Hc).
Qed.

Lemma lstrip_idem s : Str.lstrip (Str.lstrip s) = Str.lstrip s.
Proof.
  destruct (lstrip_spec s) as (l & _ & _ & Hh).
  destruct (Str.lstrip s) as [|c t]; [reflexivity|]. cbn. now rewrite Hh.
Qed.

Lemma strip_lstrip s : Str.strip (Str.lstrip s) = Str.strip s.
Proof. unfold Str.strip. now rewrite lstrip_idem. Qed.

(** White space around a text does not change what [strip] returns. *)
Lemma strip_pad l s r :
  Forall (fun c => Str.is_space c = true) l ->
  Forall (fun c => Str.is_space c = true) r ->
  Str.strip (l ++ s ++ r) = Str.strip s.
Proof.
  intros Hl Hr. destruct (lstrip_spec s) as (l0 & E & Hl0 & Hh).
  destruct (Str.lstrip s) as [|c t] eqn:Es.
  - rewrite app_nil_r in E. subst l0.
    rewrite (strip_all_space s Hl0). apply strip_all_space.
    apply Forall_app. split; [exact Hl|]. apply Forall_app. now split.
  - clear Es. subst s. rewrite <- app_assoc. cbn [app]. rewrite app_assoc.
    rewrite !(strip_app_nonspace _ _ _ Hh).
    rewrite (lstrip_all_space (l ++ l0)) by (apply Forall_app; now split).
    now rewrite (rstrip_skip _ _ Hr), (lstrip_all_space l0 Hl0).
Qed.

Lemma replace_app (old : Z) (new : pystr) a b :
  Str.replace old new (a ++ b) = Str.replace old new a ++ Str.replace old new b.
Proof. unfold Str.replace. apply flat_map_app. Qed.

Lemma replace_removes (old : Z) s :
  Forall (fun c => c <> old) (Str.replace old [] s).
Proof.
  unfold Str.replace. induction s as [|c s IH]; cbn; [constructor|].
  destruct (Z.eqb_spec c old); cbn; [exact IH | now constructor].
Qed.

Lemma contains_char (c : Z) s :
  Str.contains [c] s = false <-> Forall (fun x => x <> c) s.
Proof.
  induction s as [|x s IH]; cbn [Str.contains Str.is_prefix].
  - split; [constructor | reflexivity].
  - rewrite andb_true_r, orb_false_iff, IH, Z.eqb_neq, Forall_cons. intuition.
Qed.

(** The first piece of [s.split(sep)] is what stands before the first
    separator. *)
Lemma split_on_head (sep : Z) a b :
  Forall (fun x => x <> sep) a ->
  head (Str.split_on sep (a ++ sep :: b)) = Some a.
Proof.
  induction 1 as [|x a Hx _ IH]; cbn.
  - now rewrite Z.eqb_refl.
  - destruct (Z.eqb_spec x sep); [contradiction|].
    destruct (Str.split_on sep (a ++ sep :: b)) as [|w ts]; [discriminate|].
    cbn in *. now injection IH as ->.
Qed.

Lemma Forall_lstrip (P : Z -> Prop) s : Forall P s -> Forall P (Str.lstrip s).
Proof.
  induction 1 as [|c s Hc Hs IH]; cbn; [constructor|].
  destruct (Str.is_space c); [exact IH | now constructor].
Qed.

End MoreText.

(* ================================================================= *)
(** ** More on the price step *)

Section MorePrice.

Context `{Library}.

Import DataCleaning.

Lemma parse_price_normalized (rate : Float.t) (p q : value) :
  normalize_price p = normalize_price q -> parse_price rate p = parse_price rate q.
Proof. unfold parse_price. now intros ->. Qed.

Lemma space_not_comma (l : pystr) :
  Forall (fun c => Str.is_space c = true) l -> Forall (fun c => c <> COMMA) l.
Proof. intros Hl. eapply Forall_impl; [exact Hl|]. intros c Hc ->. discriminate. Qed.

(** X1.  [parse_price] does not see the commas of a price, wherever
    they stand, nor white space around it. *)
Theorem parse_price_ignores_separators (rate : Float.t) (s : pystr) :
  (forall l r : pystr,
     Forall (fun c => Str.is_space c = true) l ->
     Forall (fun c => Str.is_space c = true) r ->
     parse_price rate (VStr (l ++ s ++ r)) = parse_price rate (VStr s))
  /\ parse_price rate (VStr (Str.replace COMMA [] s)) = parse_price rate (VStr s).
Proof.
  split.
  - intros l r Hl Hr. apply parse_price_normalized. unfold normalize_price.
    cbn [Py.str]. rewrite !replace_app.
    rewrite (replace_absent COMMA [] l (space_not_comma l Hl)).
    rewrite (replace_absent COMMA [] r (space_not_comma r Hr)).
    now rewrite (strip_pad _ _ _ Hl Hr).
  - apply parse_price_normalized. unfold normalize_price. cbn [Py.str].
    now rewrite (replace_absent COMMA [] _ (replace_removes COMMA s)).
Qed.

Lemma float_of_str_raises (s : pystr) (e : exn) :
  Parse.float_of_str s = Raise e -> e = ValueError.
Proof.
  unfold Parse.float_of_str. destruct (_ ≫= _); [discriminate|]. now intros [= <-].
Qed.

(** X2.  [parse_price] raises exactly when the text has no dollar sign
    and reads as a number whose product with the rate is infinite; the
    exception is then [OverflowError].  So the price step raises nothing
    but that and the [KeyError] of a missing column. *)
Theorem parse_price_raises_on_overflow_only (rate : Float.t) (price : value) (e : exn) :
  (parse_price rate price = Raise e <->
   e = OverflowError
   /\ Str.contains [DOLLAR] (normalize_price price) = false
   /\ exists (x : Float.t) (neg : bool),
        Parse.float_of_str (normalize_price price) = Ok x
        /\ Float.mul x rate = S754_infinity neg)
  /\ (forall self : DataCleaning.t,
        __clean_and_transform_price self = Raise e ->
        e = KeyError \/ e = OverflowError).
Proof.
  split; [|intros self; apply clean_and_transform_price_raises].
  unfold parse_price. split.
  - destruct (Str.contains _ _).
    + destruct (Parse.float_of_str _) as [x|e'] eqn:E; cbn; [discriminate|].
      apply float_of_str_raises in E as ->. discriminate.
    + destruct (Parse.float_of_str _) as [x|e'] eqn:E; cbn.
      * destruct (Float.mul x rate) as [| neg | |] eqn:Em; cbn; try discriminate.
        intros [= <-]. repeat split. now exists x, neg.
      * apply float_of_str_raises in E as ->. discriminate.
  - intros (-> & -> & x & neg & -> & Em). cbn. now rewrite Em.
Qed.

(** X3.  A price that is missing, [None] or NaN, stays missing: the
    price step gives [None] for it and does not raise. *)
Theorem parse_price_missing (rate : Float.t) (price : value) :
  Pd.isna price = true -> parse_price rate price = Ok VNone.
Proof.
  intros Hna. destruct price as [| | |x|]; try discriminate.
  - unfold parse_price, normalize_price. cbn [Py.str].
    replace (Str.strip (Str.replace COMMA [] (u "None"))) with [78; 111; 110; 101]
      by (vm_compute; reflexivity).
    rewrite str_lower_ascii by (unfold is_ascii; repeat constructor; lia).
    vm_compute. reflexivity.
  - destruct x; try discriminate.
    unfold parse_price, normalize_price. cbn [Py.str Float.repr].
    replace (Str.strip (Str.replace COMMA [] (u "nan"))) with [110; 97; 110]
      by (vm_compute; reflexivity).
    rewrite str_lower_ascii by (unfold is_ascii; repeat constructor; lia).
    vm_compute. reflexivity.
Qed.

End MorePrice.

(* ================================================================= *)
(** ** More on the price per square metre *)

Section MorePricePerSqm.

Context `{Library}.

Import DataCleaning.

Lemma Forall_strip (P : Z -> Prop) (s : pystr) : Forall P s -> Forall P (Str.strip s).
Proof.
  intros Hs. unfold Str.strip, Str.rstrip.
  apply List.Forall_rev, Forall_lstrip, List.Forall_rev, Forall_lstrip, Hs.
Qed.

Lemma clean_row_present (rate : Float.t) (row : Pd.Row) (t : pystr) :
  row !! "price_per_sqm" = Some (VStr t) ->
  clean_row rate row
  = clean_present rate
      (if Str.contains [SLASH] (Str.strip t)
       then Str.strip (default [] (head (Str.split_on SLASH (Str.strip t))))
       else Str.strip t).
Proof.
  intros Hr. unfold clean_row, Pd.row_get. rewrite Hr. reflexivity.
Qed.

(** X4.  Of a price per square metre that is a text, [clean_row] reads
    only what stands before the first slash. *)
Theorem clean_row_reads_before_slash (rate : Float.t) (row : Pd.Row) (a b : pystr) :
  Forall (fun c => c <> SLASH) a ->
  clean_row rate (<["price_per_sqm" := VStr (a ++ SLASH :: b)]> row)
  = clean_row rate (<["price_per_sqm" := VStr a]> row).
Proof.
  intros Ha.
  rewrite (clean_row_present rate _ (a ++ SLASH :: b)) by apply lookup_insert_eq.
  rewrite (clean_row_present rate _ a) by apply lookup_insert_eq.
  rewrite (strip_app_nonspace a SLASH b eq_refl).
  assert (Hl : Forall (fun c => c <> SLASH) (Str.lstrip a)) by now apply Forall_lstrip.
  replace (Str.contains [SLASH] (Str.lstrip a ++ SLASH :: Str.rstrip b)) with true.
  - rewrite (split_on_head SLASH _ _ Hl).
    change (default [] (Some (Str.lstrip a))) with (Str.lstrip a).
    rewrite strip_lstrip.
    replace (Str.contains [SLASH] (Str.strip a)) with false; [reflexivity|].
    symmetry. apply contains_char. now apply Forall_strip.
  - symmetry. apply contains_spec. now exists (Str.lstrip a), (Str.rstrip b).
Qed.

Lemma rows_lookup (df : Pd.DataFrame) (i : nat) :
  (i < Pd.nrows df)%nat -> Pd.rows df !! i = Some (Pd.row df i).
Proof.
  intros Hi. unfold Pd.rows. rewrite list_lookup_fmap.
  now rewrite (lookup_seq_lt 0 (Pd.nrows df) i Hi).
Qed.

Lemma row_lookup (df : Pd.DataFrame) (i : nat) (c : string) :
  Pd.row df i !! c = Pd.columns df !! c ≫= fun col => Pd.cell df <$> col !! i.
Proof. unfold Pd.row. apply lookup_omap. Qed.

Lemma isna_cell (df : Pd.DataFrame) (v : value) :
  Pd.isna v = true -> Pd.isna (Pd.cell df v) = true.
Proof. unfold Pd.cell. destruct (Pd.values_float64 df); [|easy]. now destruct v. Qed.

(** A table with a cell that is no number has a column of objects, and
    its rows hold the cells as they are stored. *)
Lemma cell_stored (df : Pd.DataFrame) (c : string) (col : Pd.Series) (v : value) :
  Pd.columns df !! c = Some col -> v ∈ col -> Pd.is_number v = false ->
  forall v' : value, Pd.cell df v' = v'.
Proof.
  intros Hc Hv Hn v'. unfold Pd.cell.
  replace (Pd.values_float64 df) with false; [reflexivity|].
  symmetry. unfold Pd.values_float64. apply andb_false_intro1.
  apply not_true_is_false. intros Hall.
  rewrite forallb_forall in Hall.
  assert (Hcol : Pd.numeric_dtype col = true).
  { apply Hall. apply list_elem_of_In, list_elem_of_fmap. exists (c, col).
    split; [reflexivity|]. now apply elem_of_map_to_list. }
  unfold Pd.numeric_dtype in Hcol. apply orb_true_iff in Hcol.
  apply list_elem_of_In in Hv.
  destruct Hcol as [Hcol | Hcol]; rewrite forallb_forall in Hcol;
    specialize (Hcol v Hv); now destruct v.
Qed.

(** X5.  The price-per-area step works row by row: when it returns, cell
    [i] of the new column is what [clean_row] gives for row [i] (as a
    float when the column is float64); a missing cell is derived from
    the price and the area of the same row, as they stand in that row:
    as they are stored when the table has a cell that is no number (a
    text, [None], a timestamp), and as floats when every column is
    numeric and one of them float64. *)
Theorem clean_price_per_sqm_row_by_row (self self' : DataCleaning.t) :
  __clean_price_per_sqm self = Ok self' ->
  let df := apartments_df self in
  exists col' : Pd.Series,
    Pd.columns (apartments_df self') !! "price_per_sqm" = Some col'
    /\ length col' = Pd.nrows df
    /\ (forall i : nat, (i < Pd.nrows df)%nat ->
          exists w : value,
            clean_row (currency_rate self) (Pd.row df i) = Ok w
            /\ (col' !! i = Some w \/ col' !! i = Some (Pd.to_float64 w)))
    /\ (forall (i : nat) (pc ac ppc : Pd.Series) (pps p a : value) (x y : Z),
          Pd.columns df !! "price" = Some pc ->
          Pd.columns df !! "area_m2" = Some ac ->
          Pd.columns df !! "price_per_sqm" = Some ppc ->
          ppc !! i = Some pps -> pc !! i = Some p -> ac !! i = Some a ->
          (i < Pd.nrows df)%nat ->
          Pd.isna pps = true ->
          Py.int (Pd.cell df p) = Ok x -> Py.int (Pd.cell df a) = Ok y -> y <> 0 ->
          col' !! i = Some (VInt (x / y))
          \/ col' !! i = Some (VFloat (Float.of_Z (x / y))))
    /\ (forall (c : string) (col : Pd.Series) (v : value),
          Pd.columns df !! c = Some col -> v ∈ col -> Pd.is_number v = false ->
          forall v' : value, Pd.cell df v' = v')
    /\ (Pd.values_float64 df = true ->
        forall n : Z, Pd.cell df (VInt n) = VFloat (Float.of_Z n)).
Proof.
  unfold __clean_price_per_sqm. intros Hs.
  destruct (Pd.apply_rows _ _) as [col'|] eqn:Ea; [|discriminate].
  cbn in Hs. injection Hs as <-. cbv zeta.
  set (df := apartments_df self) in *. exists col'.
  split; [cbn; apply lookup_insert_eq|].
  split; [now apply (apply_rows_length _ _ _ Ea)|].
  assert (Hcell : forall i : nat, (i < Pd.nrows df)%nat ->
            exists w : value,
              clean_row (currency_rate self) (Pd.row df i) = Ok w
              /\ (col' !! i = Some w \/ col' !! i = Some (Pd.to_float64 w))).
  { intros i Hi. unfold Pd.apply_rows in Ea.
    destruct (res_mapM _ _) as [l|] eqn:El; [|discriminate].
    cbn in Ea. injection Ea as <-.
    destruct (res_mapM_lookup _ _ _ El i _ (rows_lookup _ i Hi)) as (w & Hw & Hl).
    exists w. split; [exact Hw | now apply infer_dtype_lookup]. }
  split; [exact Hcell|]. split; [|split].
  - intros i pc ac ppc pps p a x y Hpc Hac Hppc Hpps Hp Ha Hi Hna Hx Hy Hy0.
    destruct (Hcell i Hi) as (w & Hw & Hl).
    rewrite (clean_row_derived_quotient _ _ (Pd.cell df pps) (Pd.cell df p)
               (Pd.cell df a) x y) in Hw; try assumption.
    + destruct (Z.eqb_spec y 0); [contradiction|]. injection Hw as <-. exact Hl.
    + rewrite row_lookup. fold df. rewrite Hppc. cbn. now rewrite Hpps.
    + now apply isna_cell.
    + rewrite row_lookup. fold df. rewrite Hpc. cbn. now rewrite Hp.
    + rewrite row_lookup. fold df. rewrite Hac. cbn. now rewrite Ha.
  - apply cell_stored.
  - intros Hv n. unfold Pd.cell. now rewrite Hv.
Qed.

End MorePricePerSqm.

(* ================================================================= *)
(** ** Steps that can be run again *)

Section Idempotence.

Context `{Library}.

Import DataCleaning.

(** X6.  The classifier gives its own labels back: a label, taken as a
    description, is classified as that label. *)
Theorem extract_transaction_type_idempotent (desc : value) :
  extract_transaction_type (extract_transaction_type desc)
  = extract_transaction_type desc.
Proof.
  destruct desc as [|s| | |]; try reflexivity.
  rewrite (extract_transaction_type_eq s).
  repeat (destruct (Str.contains _ s)); vm_compute; reflexivity.
Qed.

Lemma fillna_idem (x : value) (col : Pd.Series) :
  Pd.isna x = false -> Pd.fillna x (Pd.fillna x col) = Pd.fillna x col.
Proof.
  intros Hx. unfold Pd.fillna. rewrite <- list_fmap_compose.
  apply list_fmap_ext. intros i v _. cbn.
  destruct (Pd.isna v) eqn:E; [now rewrite Hx | now rewrite E].
Qed.

Lemma fillna_complete (x : value) (col : Pd.Series) :
  Forall (fun v => Pd.isna v = false) col -> Pd.fillna x col = col.
Proof.
  unfold Pd.fillna. induction 1 as [|v col Hv _ IH]; [reflexivity|].
  rewrite fmap_cons, IH. now rewrite Hv.
Qed.

(** X7.  The district filler is idempotent, and on a column without a
    missing cell it leaves the object as it is. *)
Theorem fill_district_name_nulls_idempotent (self self' : DataCleaning.t) :
  __fill_district_name_nulls self = Ok self' ->
  __fill_district_name_nulls self' = Ok self'
  /\ (forall col : Pd.Series,
        Pd.columns (apartments_df self) !! "district_name" = Some col ->
        Forall (fun v => Pd.isna v = false) col -> self' = self).
Proof.
  unfold __fill_district_name_nulls, Pd.getitem.
  destruct (Pd.columns (apartments_df self) !! "district_name") as [col|] eqn:Ec;
    [|discriminate].
  cbn. intros [= <-]. split.
  - cbn. rewrite lookup_insert_eq. cbn. unfold with_df, Pd.setitem. cbn.
    now rewrite insert_insert_eq, fillna_idem.
  - intros col0 [= <-] Hc. rewrite (fillna_complete _ _ Hc).
    destruct self as [[n cols] rate]. unfold with_df, Pd.setitem. cbn in *.
    now rewrite insert_id.
Qed.

Lemma area_value_is_number (x : value) : Pd.is_number (area_value x) = true.
Proof.
  unfold area_value. destruct (strip_unit x) as [|s| | |]; try reflexivity.
  cbn. now destruct (to_numeric_text s) as [[]|].
Qed.

Lemma infer_dtype_numbers (col : Pd.Series) :
  Forall (fun v => Pd.is_number v = true) col ->
  Forall (fun v => Pd.is_number v = true) (Pd.infer_dtype col).
Proof.
  intros Hc. destruct (infer_dtype_cases col) as [-> | ->]; [exact Hc|].
  apply Forall_fmap. eapply Forall_impl; [exact Hc|]. intros v Hv. now destruct v.
Qed.

Lemma infer_dtype_idem (col : Pd.Series) :
  Forall (fun v => Pd.is_number v = true) col ->
  Pd.infer_dtype (Pd.infer_dtype col) = Pd.infer_dtype col.
Proof.
  intros Hc. destruct (infer_dtype_cases col) as [E | E]; rewrite E; [exact E|].
  apply infer_dtype_floats.
  clear E. induction Hc as [|v col Hv _ IH]; [reflexivity|].
  rewrite fmap_cons. cbn. rewrite IH. now destruct v.
Qed.

Lemma area_value_numbers (col : Pd.Series) :
  Forall (fun v => Pd.is_number v = true) col -> area_value <$> col = col.
Proof.
  induction 1 as [|v col Hv _ IH]; [reflexivity|].
  now rewrite fmap_cons, IH, (area_value_number v Hv).
Qed.

(** After the area step every cell of the area column is a number. *)
Lemma clean_area_m2_numbers (self self' : DataCleaning.t) :
  __clean_area_m2 self = Ok self' ->
  column_all (apartments_df self') "area_m2" (fun v => Pd.is_number v = true).
Proof.
  intros Hs.
  destruct (Pd.columns (apartments_df self) !! "area_m2") as [col|] eqn:Ec.
  - rewrite (clean_area_m2_eq self col Ec) in Hs. injection Hs as <-.
    eexists. split; [cbn; apply lookup_insert_eq|].
    apply infer_dtype_numbers, Forall_fmap, Forall_forall.
    intros v _. apply area_value_is_number.
  - unfold __clean_area_m2, Pd.getitem in Hs. now rewrite Ec in Hs.
Qed.

(** X8.  The area step is idempotent, and after it every cell of the
    area column is a number (NaN where nothing could be read). *)
Theorem clean_area_m2_idempotent (self self' : DataCleaning.t) :
  __clean_area_m2 self = Ok self' ->
  __clean_area_m2 self' = Ok self'
  /\ exists col' : Pd.Series,
       Pd.columns (apartments_df self') !! "area_m2" = Some col'
       /\ Forall (fun v => Pd.is_number v = true) col'.
Proof.
  intros Hs. split; [|exact (clean_area_m2_numbers self self' Hs)].
  destruct (Pd.columns (apartments_df self) !! "area_m2") as [col|] eqn:Ec.
  - rewrite (clean_area_m2_eq self col Ec) in Hs. injection Hs as <-.
    assert (Hn : Forall (fun v => Pd.is_number v = true)
                   (Pd.infer_dtype (area_value <$> col))).
    { apply infer_dtype_numbers, Forall_fmap, Forall_forall.
      intros v _. apply area_value_is_number. }
    rewrite (clean_area_m2_eq _ (Pd.infer_dtype (area_value <$> col)))
      by (cbn; apply lookup_insert_eq).
    rewrite (area_value_numbers _ Hn), infer_dtype_idem.
    + unfold with_df, Pd.setitem. cbn. now rewrite insert_insert_eq.
    + apply Forall_fmap, Forall_forall. intros v _. apply area_value_is_number.
  - unfold __clean_area_m2, Pd.getitem in Hs. now rewrite Ec in Hs.
Qed.

End Idempotence.

(* ================================================================= *)
(** ** More on the upload date *)

Section MoreUploadDate.

Context `{Library}.

Import DataCleaning.

(** What [parse_date] returns. *)
Lemma parse_date_kind (now_year : Z) (v : value) :
  exists w : value, parse_date now_year v = Ok w /\ date_of_year now_year w.
Proof.
  unfold date_of_year.
  destruct v as [|s| | |]; try (exists VNone; split; [reflexivity | now left]).
  destruct (Str.split s) as [|day [|mon [|time [|x l]]]] eqn:Es;
    try (exists VNone; split; [|now left];
         apply parse_date_other; rewrite Es; cbn; lia).
  rewrite (parse_date_tokens now_year s day mon time Es).
  destruct (geo_months !! _) as [m|]; [|exists VNone; split; [reflexivity | now left]].
  destruct (Parse.int_of_str day) as [d|];
    [|exists VNone; split; [reflexivity | now left]].
  destruct (Parse.int_of_str (Str.slice_to 2 time)) as [h|];
    [|exists VNone; split; [reflexivity | now left]].
  destruct (Parse.int_of_str (Str.slice 3 5 time)) as [mi|];
    [|exists VNone; split; [reflexivity | now left]].
  destruct (Py.datetime_in_range now_year m d h mi) eqn:Er;
    [|exists VNone; split; [reflexivity | now left]].
  eexists. split; [reflexivity|]. right. now exists m, d, h, mi.
Qed.

(** X9.  [parse_date] never raises, and what it returns is the missing
    marker or a timestamp of the current year whose fields are in range:
    no other year, and no date that the calendar does not have. *)
Theorem parse_date_result (now_year : Z) (v : value) :
  exists w : value,
    parse_date now_year v = Ok w
    /\ (w = VNone
        \/ exists m d h mi : Z,
             w = VDate (Datetime now_year m d h mi)
             /\ Py.datetime_in_range now_year m d h mi = true).
Proof.
  destruct (parse_date_kind now_year v) as (w & Hw & Hk).
  exists w. split; [exact Hw|].
  destruct Hk as [-> | (m & d & h & mi & -> & Hr)]; [now left | right].
  now exists m, d, h, mi.
Qed.

(** X10.  Of the month token [parse_date] reads the first three
    characters, and of the time token the characters 0-1 and 3-4: two
    texts that agree there, and in the day, give the same result. *)
Theorem parse_date_reads_prefixes (now_year : Z) (s s' day mon mon' time time' : pystr) :
  Str.split s = [day; mon; time] ->
  Str.split s' = [day; mon'; time'] ->
  Str.slice_to 3 mon = Str.slice_to 3 mon' ->
  Str.slice_to 2 time = Str.slice_to 2 time' ->
  Str.slice 3 5 time = Str.slice 3 5 time' ->
  parse_date now_year (VStr s) = parse_date now_year (VStr s').
Proof.
  intros Hs Hs' Em E1 E2.
  rewrite (parse_date_tokens _ _ _ _ _ Hs), (parse_date_tokens _ _ _ _ _ Hs').
  now rewrite Em, E1, E2.
Qed.

(** *** The text of a timestamp *)

Lemma digit_no_space (c : Z) : Digits.is_digit c = true -> Str.is_space c = false.
Proof.
  unfold Digits.is_digit. intros [H1 H2]%andb_true_iff.
  apply Z.leb_le in H1, H2. unfold Str.is_space.
  repeat match goal with
         | |- context [?a <=? ?b] => destruct (Z.leb_spec a b); try lia
         | |- context [?a =? ?b] => destruct (Z.eqb_spec a b); try lia
         end;
    try reflexivity.
Qed.

Lemma of_pos_fuel_digits (fuel : nat) (n : Z) (acc : list Z) :
  Forall (fun c => Digits.is_digit c = true) acc -> acc <> [] ->
  Forall (fun c => Digits.is_digit c = true) (Digits.of_pos_fuel fuel n acc)
  /\ Digits.of_pos_fuel fuel n acc <> [].
Proof.
  revert n acc. induction fuel as [|fuel IH]; intros n acc Ha Hne; cbn; [now split|].
  assert (Hd : Digits.is_digit (48 + n mod 10) = true).
  { unfold Digits.is_digit. pose proof (Z.mod_pos_bound n 10). lia. }
  destruct (n <? 10).
  - split; [now constructor | discriminate].
  - apply IH; [now constructor | discriminate].
Qed.

Lemma zero_pad_digits (width : nat) (n : Z) :
  Forall (fun c => Str.is_space c = false) (Py.zero_pad width n)
  /\ Py.zero_pad width n <> [].
Proof.
  unfold Py.zero_pad, Digits.of_nonneg. cbn [Digits.of_pos_fuel].
  assert (Hd : Digits.is_digit (48 + n mod 10) = true).
  { unfold Digits.is_digit. pose proof (Z.mod_pos_bound n 10). lia. }
  set (ds := if n <? 10 then _ else _).
  assert (Hds : Forall (fun c => Digits.is_digit c = true) ds /\ ds <> []).
  { subst ds. destruct (n <? 10).
    - split; [repeat constructor; exact Hd | discriminate].
    - apply of_pos_fuel_digits; [repeat constructor; exact Hd | discriminate]. }
  destruct Hds as [Hf Hne]. split.
  - apply Forall_app. split.
    + apply Forall_replicate. reflexivity.
    + eapply Forall_impl; [exact Hf | exact digit_no_space].
  - destruct (replicate _ _); [exact Hne | discriminate].
Qed.

Lemma split_go_no_space (b : pystr) :
  Forall (fun c => Str.is_space c = false) b -> Str.split_go b = (b, []).
Proof. induction 1 as [|c b Hc _ IH]; cbn; [reflexivity | now rewrite IH, Hc]. Qed.

(** Two runs of characters with a blank between them are two tokens. *)
Lemma split_two (a b : pystr) :
  Forall (fun c => Str.is_space c = false) a -> a <> [] ->
  Forall (fun c => Str.is_space c = false) b -> b <> [] ->
  Str.split (a ++ 32 :: b) = [a; b].
Proof.
  intros Ha Hna Hb Hnb. unfold Str.split.
  assert (E : Str.split_go (a ++ 32 :: b) = (a, [b])).
  { clear Hna. induction Ha as [|c a Hc _ IH]; cbn.
    - rewrite (split_go_no_space b Hb). now destruct b.
    - now rewrite IH, Hc. }
  rewrite E. now destruct a.
Qed.

Lemma str_of_datetime_tokens (d : datetime) :
  length (Str.split (Py.str_of_datetime d)) = 2%nat.
Proof.
  unfold Py.str_of_datetime.
  destruct (zero_pad_digits 4 (dt_year d)) as [Y1 Y2].
  destruct (zero_pad_digits 2 (dt_month d)) as [M1 M2].
  destruct (zero_pad_digits 2 (dt_day d)) as [D1 D2].
  destruct (zero_pad_digits 2 (dt_hour d)) as [H1 H2].
  destruct (zero_pad_digits 2 (dt_minute d)) as [I1 I2].
  set (a := Py.zero_pad 4 (dt_year d) ++ [45] ++ Py.zero_pad 2 (dt_month d)
            ++ [45] ++ Py.zero_pad 2 (dt_day d)).
  set (b := Py.zero_pad 2 (dt_hour d) ++ [58] ++ Py.zero_pad 2 (dt_minute d) ++ u ":00").
  replace (Py.zero_pad 4 (dt_year d) ++ [45] ++ Py.zero_pad 2 (dt_month d) ++ [45]
           ++ Py.zero_pad 2 (dt_day d) ++ [32] ++ b)
    with (a ++ 32 :: b) by (subst a; now rewrite <- !app_assoc).
  rewrite split_two; [reflexivity|..].
  - subst a. rewrite !Forall_app. repeat split; try assumption; now repeat constructor.
  - subst a. now destruct (Py.zero_pad 4 (dt_year d)).
  - subst b. rewrite !Forall_app. repeat split; try assumption; now repeat constructor.
  - subst b. now destruct (Py.zero_pad 2 (dt_hour d)).
Qed.

(** What [parse_date] has returned does not read as a date again. *)
Lemma parse_date_of_output (now_year : Z) (w : value) :
  w = VNone \/ (exists d, w = VDate d) ->
  parse_date now_year (VStr (Py.str w)) = Ok VNone.
Proof.
  intros [->|[d ->]]; apply parse_date_other.
  - vm_compute. discriminate.
  - cbn [Py.str]. rewrite str_of_datetime_tokens. discriminate.
Qed.

End MoreUploadDate.

(* ================================================================= *)
(** ** What the columns hold after cleaning *)

Section Schema.

Context `{Library}.

Import DataCleaning.

Lemma res_mapM_Forall {A B : Type} (f : A -> res B) (P : B -> Prop)
    (l : list A) (l' : list B) :
  res_mapM f l = Ok l' -> (forall a b, f a = Ok b -> P b) -> Forall P l'.
Proof.
  intros El Hf. revert l' El. induction l as [|a l IH]; intros l'; cbn.
  - intros [= <-]. constructor.
  - destruct (f a) as [b|] eqn:Ea; [|discriminate]. cbn.
    destruct (res_mapM f l) as [bs|]; [|discriminate]. cbn.
    intros [= <-]. constructor; [now apply (Hf a) | now apply IH].
Qed.

Lemma res_mapM_ext_ok {A B : Type} (f : A -> res B) (g : A -> B) (l : list A) :
  Forall (fun a => f a = Ok (g a)) l -> res_mapM f l = Ok (g <$> l).
Proof. induction 1 as [|a l Ha _ IH]; cbn; [reflexivity | now rewrite Ha, IH]. Qed.


(** A column without a number keeps its objects. *)
Lemma infer_dtype_no_number (col : Pd.Series) :
  Forall (fun v => Pd.is_number v = false) col -> Pd.infer_dtype col = col.
Proof.
  intros Hc. unfold Pd.infer_dtype.
  replace (existsb Pd.is_number col) with false; [now rewrite andb_false_r|].
  symmetry. induction Hc as [|v col Hv _ IH]; [reflexivity|]. cbn. now rewrite Hv.
Qed.





Lemma date_of_year_no_number (now_year : Z) (l : Pd.Series) :
  Forall (date_of_year now_year) l -> Forall (fun v => Pd.is_number v = false) l.
Proof.
  intros Hl. eapply Forall_impl; [exact Hl|].
  intros v [->|(m & d & h & mi & -> & _)]; reflexivity.
Qed.

Lemma upload_date_step_column (now_year : Z) (self self' : DataCleaning.t) :
  __transform_upload_date now_year self = Ok self' ->
  column_all (apartments_df self') "upload_date" (date_of_year now_year).
Proof.
  unfold __transform_upload_date.
  destruct (Pd.getitem _ _) as [col|]; [|discriminate]. cbn [mbind res_bind].
  rewrite getitem_setitem. cbn [mbind res_bind].
  unfold Pd.apply. destruct (res_mapM _ _) as [l|] eqn:El; [|discriminate].
  cbn. intros [= <-]. eexists. split; [cbn; apply lookup_insert_eq|].
  assert (Hl : Forall (date_of_year now_year) l).
  { apply (res_mapM_Forall _ _ _ _ El). intros a b Hab.
    destruct (parse_date_kind now_year a) as (w & Hw & Hk).
    rewrite Hw in Hab. injection Hab as <-. exact Hk. }
  now rewrite (infer_dtype_no_number l (date_of_year_no_number _ _ Hl)).
Qed.






End Schema.

(* ================================================================= *)
(** ** The pipeline as a whole *)

Section Pipeline.

Context `{Library}.

Import DataCleaning.

(** X11.  The date step cannot be run again: on its own output it
    returns, and turns every cell of the date column into the missing
    marker, since the text of a timestamp has two tokens, not three. *)
Theorem transform_upload_date_twice (now_year now_year' : Z)
    (self self1 : DataCleaning.t) :
  __transform_upload_date now_year self = Ok self1 ->
  exists (self2 : DataCleaning.t) (col : Pd.Series),
    __transform_upload_date now_year' self1 = Ok self2
    /\ Pd.columns (apartments_df self2) !! "upload_date" = Some col
    /\ Forall (fun v => v = VNone) col.
Proof.
  intros H1. destruct (upload_date_step_column _ _ _ H1) as (col1 & Hc1 & Hd).
  assert (Eg : Pd.getitem (apartments_df self1) "upload_date" = Ok col1)
    by (unfold Pd.getitem; now rewrite Hc1).
  unfold __transform_upload_date. rewrite Eg. cbn [mbind res_bind].
  rewrite getitem_setitem. cbn [mbind res_bind]. unfold Pd.apply.
  rewrite (res_mapM_ext_ok _ (fun _ => VNone)).
  - cbn. eexists _, _. split; [reflexivity|]. split; [cbn; apply lookup_insert_eq|].
    rewrite infer_dtype_no_number.
    + apply Forall_fmap, Forall_forall. now intros v _.
    + apply Forall_fmap, Forall_forall. now intros v _.
  - unfold Pd.astype_str. apply Forall_fmap. eapply Forall_impl; [exact Hd|].
    intros v Hv. cbn. apply parse_date_of_output.
    destruct Hv as [->|(m & d & h & mi & -> & _)]; [now left | right; eauto].
Qed.

Lemma getitem_missing (df : Pd.DataFrame) (c : string) :
  Pd.columns df !! c = None -> Pd.getitem df c = Raise KeyError.
Proof. unfold Pd.getitem. now intros ->. Qed.

(** X12.  A step raises [KeyError] when the column it reads is not in
    the table.  The price-per-area step reads its column row by row, and
    so raises when the table has a row (and some column: pandas treats
    a frame without columns apart). *)
Theorem missing_column_is_key_error (now_year : Z) (self : DataCleaning.t) :
  let cols := Pd.columns (apartments_df self) in
  (cols !! "price" = None -> __clean_and_transform_price self = Raise KeyError)
  /\ (cols !! "area_m2" = None -> __clean_area_m2 self = Raise KeyError)
  /\ (cols !! "price_per_sqm" = None ->
      (0 < Pd.nrows (apartments_df self))%nat -> (0 < size cols)%nat ->
      __clean_price_per_sqm self = Raise KeyError)
  /\ (cols !! "upload_date" = None ->
      __transform_upload_date now_year self = Raise KeyError)
  /\ (cols !! "description" = None ->
      __new_transaction_type_col self = Raise KeyError)
  /\ (cols !! "district_name" = None ->
      __fill_district_name_nulls self = Raise KeyError).
Proof.
  cbv zeta. repeat split.
  - intros Hc. unfold __clean_and_transform_price. now rewrite (getitem_missing _ _ Hc).
  - intros Hc. unfold __clean_area_m2. now rewrite (getitem_missing _ _ Hc).
  - intros Hc Hn _. unfold __clean_price_per_sqm, Pd.apply_rows, Pd.rows.
    destruct (Pd.nrows (apartments_df self)) as [|n]; [lia|].
    cbn [seq fmap list_fmap res_mapM].
    replace (clean_row (currency_rate self) (Pd.row (apartments_df self) 0))
      with (Raise (A:=value) KeyError); [reflexivity|].
    unfold clean_row, Pd.row_get.
    now rewrite (row_lookup _ 0 "price_per_sqm"), Hc.
  - intros Hc. unfold __transform_upload_date. now rewrite (getitem_missing _ _ Hc).
  - intros Hc. unfold __new_transaction_type_col. now rewrite (getitem_missing _ _ Hc).
  - intros Hc. unfold __fill_district_name_nulls. now rewrite (getitem_missing _ _ Hc).
Qed.


Lemma null_count_fillna (x : value) (col : Pd.Series) :
  Pd.isna x = false -> Pd.null_count (Pd.fillna x col) = 0%nat.
Proof.
  intros Hx. unfold Pd.null_count, Pd.fillna.
  induction col as [|v col IH]; [reflexivity|].
  rewrite fmap_cons, filter_cons. destruct (decide _) as [E|_]; [|exact IH].
  exfalso. cbn beta in E. destruct (Pd.isna v) eqn:Ev; congruence.
Qed.

(** X14.  What the closing diagnostics show: after the district filler,
    [__get_null_columns] counts no missing cell in [district_name] and
    for every other column what it counted before, and [__get_shape] is
    unchanged; after a run of [main] that returns, the count for
    [district_name] is zero. *)
Theorem null_columns_after_fill (now_year : Z) (self self' : DataCleaning.t) :
  (__fill_district_name_nulls self = Ok self' ->
     __get_null_columns self' !! "district_name" = Some 0%nat
     /\ (forall c : string, c <> "district_name" ->
           __get_null_columns self' !! c = __get_null_columns self !! c)
     /\ __get_shape self' = __get_shape self)
  /\ (main now_year self = Ok self' ->
      __get_null_columns self' !! "district_name" = Some 0%nat).
Proof.
  assert (Hfill : forall s s' : DataCleaning.t,
            __fill_district_name_nulls s = Ok s' ->
            __get_null_columns s' !! "district_name" = Some 0%nat
            /\ (forall c : string, c <> "district_name" ->
                  __get_null_columns s' !! c = __get_null_columns s !! c)
            /\ __get_shape s' = __get_shape s).
  { intros s s'. unfold __fill_district_name_nulls, Pd.getitem.
    destruct (Pd.columns (apartments_df s) !! "district_name") as [col|] eqn:Ec;
      [|discriminate].
    cbn. intros [= <-]. unfold __get_null_columns, __get_shape, Pd.isnull_sum, Pd.shape.
    cbn. split; [|split].
    - rewrite lookup_fmap, lookup_insert_eq. cbn. now rewrite null_count_fillna.
    - intros c Hc. now rewrite !lookup_fmap, lookup_insert_ne.
    - f_equal. apply map_size_insert_Some. now exists col. }
  split; [apply Hfill|].
  intros Hmain. unfold main in Hmain.
  destruct (__clean_and_transform_price self) as [s1|]; [|discriminate]. cbn in Hmain.
  destruct (__clean_area_m2 s1) as [s2|]; [|discriminate]. cbn in Hmain.
  destruct (__clean_price_per_sqm s2) as [s3|]; [|discriminate]. cbn in Hmain.
  destruct (__transform_upload_date now_year s3) as [s4|]; [|discriminate].
  cbn in Hmain.
  destruct (__new_transaction_type_col s4) as [s5|]; [|discriminate]. cbn in Hmain.
  now apply (Hfill s5 self').
Qed.

End Pipeline.

(* ================================================================= *)
(** * The further properties on concrete tables *)

Module MoreExamples.

#[local] Existing Instance Reference.library.

Import DataCleaning Tables.

Lemma parse_price_ignores_separators_witness :
  parse_price rate (VStr ([32; 32] ++ PRICE_1500 ++ [32]))
    = parse_price rate (VStr PRICE_1500)
  /\ parse_price rate (VStr PRICE_1500) = Ok (VFloat (flt 1500 0)).
Proof.
  split; [|vm_compute; reflexivity].
  apply (proj1 (parse_price_ignores_separators rate PRICE_1500));
    repeat constructor.
Defined.

Lemma parse_price_raises_on_overflow_only_witness :
  parse_price rate (VStr INF_TEXT) = Raise OverflowError.
Proof.
  apply (proj2 (proj1 (parse_price_raises_on_overflow_only rate (VStr INF_TEXT)
                         OverflowError))).
  split; [reflexivity|]. split; [vm_compute; reflexivity|].
  exists (Float.inf false), false. split; vm_compute; reflexivity.
Defined.

Lemma parse_price_missing_witness :
  parse_price rate NaN = Ok VNone /\ parse_price rate VNone = Ok VNone.
Proof. split; apply parse_price_missing; reflexivity. Defined.

Lemma clean_row_reads_before_slash_witness :
  clean_row rate (<["price_per_sqm" := VStr (RATE_1130 ++ SLASH :: PER_SQM)]>
                    (listing_row VNone VNone VNone))
  = clean_row rate (<["price_per_sqm" := VStr RATE_1130]>
                      (listing_row VNone VNone VNone)).
Proof.
  apply clean_row_reads_before_slash. unfold RATE_1130, SLASH.
  repeat constructor; discriminate.
Defined.

Lemma clean_price_per_sqm_row_by_row_witness :
  (exists (self' : DataCleaning.t) (col' : Pd.Series),
     __clean_price_per_sqm derivable = Ok self'
     /\ Pd.columns (apartments_df self') !! "price_per_sqm" = Some col'
     /\ length col' = 2%nat
     /\ (col' !! 0%nat = Some (VInt 2000)
         \/ col' !! 0%nat = Some (VFloat (Float.of_Z 2000))))
  /\ (exists (self' : DataCleaning.t) (col' : Pd.Series),
       __clean_price_per_sqm wide_price = Ok self'
       /\ Pd.columns (apartments_df self') !! "price_per_sqm" = Some col'
       /\ (col' !! 0%nat = Some (VInt 9007199254740992)
           \/ col' !! 0%nat = Some (VFloat (Float.of_Z 9007199254740992)))).
Proof.
  split.
  - destruct (__clean_price_per_sqm derivable) as [self'|e] eqn:E.
    + destruct (clean_price_per_sqm_row_by_row derivable self' E)
        as (col' & Hc & Hl & _ & Hd & _).
      exists self', col'. repeat split; [exact Hc | exact Hl |].
      apply (Hd 0%nat [VFloat (flt 100000 0); VFloat (flt 55500 0)]
                [VFloat (flt 50 0); VFloat (flt 80 0)] [NaN; VStr RATE_1130]
                NaN (VFloat (flt 100000 0)) (VFloat (flt 50 0)) 100000 50);
        try reflexivity; try (cbn; lia); discriminate.
    + exfalso. vm_compute in E. discriminate E.
  - destruct (__clean_price_per_sqm wide_price) as [self'|e] eqn:E.
    + destruct (clean_price_per_sqm_row_by_row wide_price self' E)
        as (col' & Hc & _ & _ & Hd & _).
      exists self', col'. repeat split; [exact Hc |].
      apply (Hd 0%nat [VInt 9007199254740993] [VFloat (flt 1 0)] [NaN]
                NaN (VInt 9007199254740993) (VFloat (flt 1 0))
                9007199254740992 1);
        try reflexivity; try (cbn; lia); discriminate.
    + exfalso. vm_compute in E. discriminate E.
Defined.

(** The price 2^53 + 1 reaches [clean_row] as the float 2^53. *)
Lemma clean_price_per_sqm_wide_price :
  column_after __clean_price_per_sqm wide_price "price_per_sqm"
  = Ok [VInt 9007199254740992].
Proof. vm_compute. reflexivity. Qed.

Lemma fill_district_name_nulls_idempotent_witness :
  exists self' : DataCleaning.t,
    __fill_district_name_nulls listings = Ok self'
    /\ __fill_district_name_nulls self' = Ok self'.
Proof.
  destruct (__fill_district_name_nulls listings) as [self'|e] eqn:E.
  - exists self'. split; [reflexivity|].
    exact (proj1 (fill_district_name_nulls_idempotent listings self' E)).
  - exfalso. vm_compute in E. discriminate E.
Defined.

Lemma clean_area_m2_idempotent_witness :
  exists self' : DataCleaning.t,
    __clean_area_m2 listings = Ok self' /\ __clean_area_m2 self' = Ok self'.
Proof.
  destruct (__clean_area_m2 listings) as [self'|e] eqn:E.
  - exists self'. split; [reflexivity|].
    exact (proj1 (clean_area_m2_idempotent listings self' E)).
  - exfalso. vm_compute in E. discriminate E.
Defined.

Lemma parse_date_reads_prefixes_witness :
  parse_date 2026 (VStr MARCH_15_LONG) = parse_date 2026 (VStr MARCH_15)
  /\ parse_date 2026 (VStr MARCH_15) = Ok (VDate (Datetime 2026 3 15 14 30)).
Proof.
  split; [|vm_compute; reflexivity].
  apply (parse_date_reads_prefixes 2026 MARCH_15_LONG MARCH_15
           DAY_15 MARCH_LONG MAR TIME_14_30_45 TIME_14_30); reflexivity.
Defined.

Lemma transform_upload_date_twice_witness :
  exists (self1 self2 : DataCleaning.t) (col : Pd.Series),
    __transform_upload_date 2026 priced_listings = Ok self1
    /\ __transform_upload_date 2026 self1 = Ok self2
    /\ Pd.columns (apartments_df self2) !! "upload_date" = Some col
    /\ Forall (fun v => v = VNone) col.
Proof.
  destruct (__transform_upload_date 2026 priced_listings) as [self1|e] eqn:E.
  - destruct (transform_upload_date_twice 2026 2026 priced_listings self1 E)
      as (self2 & col & H2 & Hc & Hn).
    now exists self1, self2, col.
  - exfalso. vm_compute in E. discriminate E.
Defined.

Lemma missing_column_is_key_error_witness :
  __clean_and_transform_price unpriced = Raise KeyError
  /\ __clean_price_per_sqm unpriced = Raise KeyError.
Proof.
  destruct (missing_column_is_key_error 2026 unpriced) as (K1 & _ & K3 & _).
  split; [apply K1; reflexivity | apply K3; [reflexivity | cbn; lia | vm_compute; lia]].
Defined.


Lemma null_columns_after_fill_witness :
  exists self' : DataCleaning.t,
    main 2026 priced_listings = Ok self'
    /\ __get_null_columns priced_listings !! "district_name" = Some 1%nat
    /\ __get_null_columns self' !! "district_name" = Some 0%nat.
Proof.
  destruct (main 2026 priced_listings) as [self'|e] eqn:E.
  - exists self'. split; [reflexivity|]. split; [vm_compute; reflexivity|].
    exact (proj2 (null_columns_after_fill 2026 priced_listings self') E).
  - exfalso. vm_compute in E. discriminate E.
Defined.

End MoreExamples.
